(** * Checkout of the storefront: cart, pricing, stock and orders

    A shallow embedding of [models.py], [blueprints/cart.py],
    [blueprints/forms.py], [blueprints/checkout.py], and of parts of
    [blueprints/admin.py] and [blueprints/wishlist.py].

    - Money columns are [db.Float]: Python floats, that is IEEE 754
      binary64.  They are modelled bit for bit with the Standard Library's
      [spec_float] operations at precision 53, and Python's [round(x, 2)]
      is written out on top of them.
    - Integer columns and Python ints are [Z].
    - Text that comes from the request is a Python [str]: the list of
      its code points.
    - The SQLAlchemy session holds, beside the rows the data store has
      committed, the rows of its open transaction; [commit] publishes
      them and [rollback] drops them.
    - A query without ORDER BY returns its rows in the order the data
      store chooses, and [sum] depends on the interpreter: both are part
      of the environment of a request. *)

From Stdlib Require Import ZArith Lia Bool List String Ascii.
From Stdlib Require Import SpecFloat.
From stdpp Require Import base option list gmap.
Import ListNotations.

Local Open Scope string_scope.
Local Open Scope Z_scope.

(* ===================================================================== *)
(** ** Python floats *)
(* ===================================================================== *)

Module PyFloat.

Definition prec : Z := 53.
Definition emax : Z := 1024.

Definition float : Type := spec_float.

Definition fadd : float -> float -> float := SFadd prec emax.
Definition fsub : float -> float -> float := SFsub prec emax.
Definition fmul : float -> float -> float := SFmul prec emax.
Definition fdiv : float -> float -> float := SFdiv prec emax.
Definition fabs : float -> float := SFabs.

(** [x < y], [x <= y] and [x == y]; all three are [False] on a NaN. *)
Definition flt : float -> float -> bool := SFltb.
Definition fle : float -> float -> bool := SFleb.
Definition feq : float -> float -> bool := SFeqb.

(** The value of a float: finite and stored in canonical form. *)
Definition is_finite (x : float) : bool :=
  match x with
  | S754_zero _ | S754_finite _ _ _ => true
  | _ => false
  end.

Definition well_formed (x : float) : bool :=
  valid_binary prec emax x.

(** The float nearest to [n / d] (ties to even): how a decimal literal
    such as [0.05] is read, and how [round] reads back its digits. *)
Definition float_of_ratio (s : bool) (n d : positive) : float :=
  let '(q, e, l) := SFdiv_core_binary prec emax (Zpos n) 0 (Zpos d) 0 in
  binary_round_aux prec emax s q e l.

(** [float(n)] for an int [n]. *)
Definition float_of_Z (n : Z) : float :=
  binary_normalize prec emax n 0 false.

(** The integer nearest to [n / d], ties to even ([d > 0]). *)
Definition nearest_even_div (n d : Z) : Z :=
  let q := n / d in
  match 2 * (n mod d) ?= d with
  | Lt => q
  | Gt => q + 1
  | Eq => if Z.even q then q else q + 1
  end.

(** The integer nearest to [m * 2^e * 100]. *)
Definition hundredths (m : positive) (e : Z) : Z :=
  match e with
  | Zneg p => nearest_even_div (Zpos m * 100) (2 ^ Zpos p)
  | _ => Zpos m * 100 * 2 ^ e
  end.

(** [round(x, 2)]: CPython prints the exact binary value with two
    digits after the point, correctly rounded, and parses the digits
    back; NaN and the infinities round to themselves, and the sign of
    [x] is kept on a zero result. *)
Definition round2 (x : float) : float :=
  match x with
  | S754_finite s m e =>
      match hundredths m e with
      | Zpos n => float_of_ratio s n 100
      | _ => S754_zero s
      end
  | _ => x
  end.

Definition zero : float := S754_zero false.
Definition one : float := float_of_Z 1.
Definition hundred : float := float_of_Z 100.

End PyFloat.

Export PyFloat.

(* ===================================================================== *)
(** ** Exceptions *)
(* ===================================================================== *)

Inductive exn : Type :=
| TypeError          (* an operator applied to [None] *)
| AttributeError     (* an attribute read on [None] *)
| IntegrityError     (* a unique constraint refused an INSERT *)
| OperationalError.  (* the data store refused a statement *)

Definition result (A : Type) : Type := (A + exn)%type.

Definition ok {A} (a : A) : result A := inl a.
Definition raise {A} (e : exn) : result A := inr e.

Definition rbind {A B} (c : result A) (k : A -> result B) : result B :=
  match c with
  | inl a => k a
  | inr e => inr e
  end.

(* ===================================================================== *)
(** ** Text *)
(* ===================================================================== *)

(** A [str] received with the request: its code points. *)
Definition text : Type := list Z.

(** The text of an ASCII literal. *)
Definition text_of (s : string) : text :=
  List.map (fun c => Z.of_N (N_of_ascii c)) (list_ascii_of_string s).

(** [len(s)] *)
Definition len (s : text) : Z := Z.of_nat (List.length s).

(** [str.isspace] on one code point; these are the characters that
    [str.strip()] removes. *)
Definition is_space (c : Z) : bool :=
  ((9 <=? c) && (c <=? 13)) || ((28 <=? c) && (c <=? 32))
  || (c =? 0x85) || (c =? 0xA0) || (c =? 0x1680)
  || ((0x2000 <=? c) && (c <=? 0x200A))
  || (c =? 0x2028) || (c =? 0x2029) || (c =? 0x202F)
  || (c =? 0x205F) || (c =? 0x3000).

(** [not s.strip()] *)
Definition blank (s : text) : bool := List.forallb is_space s.

(* ===================================================================== *)
(** ** models.py *)
(* ===================================================================== *)

Module Product.

Record t : Type := mk {
  name : string;
  size : string;
  sku : string;
  price : float;
  (* nullable column with default 0 *)
  discount_percentage : option float;
  stock_quantity : Z;
  is_active : bool
}.

Definition is_in_stock (self : t) : bool :=
  0 <? stock_quantity self.

(** [get_discounted_price]: the comparison [None > 0] raises. *)
Definition get_discounted_price (self : t) : result float :=
  match discount_percentage self with
  | None => raise TypeError
  | Some d =>
      if flt zero d
      then ok (round2 (fmul (price self) (fsub one (fdiv d hundred))))
      else ok (price self)
  end.

Definition set_stock_quantity (q : Z) (self : t) : t :=
  mk (name self) (size self) (sku self) (price self)
     (discount_percentage self) q (is_active self).

End Product.

Module CartItem.

Record t : Type := mk {
  id : Z;
  quantity : Z;
  user_id : Z;
  product_id : Z
}.

Definition set_quantity (q : Z) (self : t) : t :=
  mk (id self) q (user_id self) (product_id self).

End CartItem.

Module CartItemMethods.

(** [CartItem.get_subtotal]; [product] is the row behind the
    [self.product] relationship, [None] when there is no such row. *)
Definition get_subtotal (product : option Product.t) (self : CartItem.t)
  : result float :=
  match product with
  | None => raise AttributeError
  | Some p =>
      rbind (Product.get_discounted_price p) (fun unit_price =>
      ok (round2 (fmul unit_price (float_of_Z (CartItem.quantity self)))))
  end.

End CartItemMethods.

Module Order.

(** Columns that the constructor may leave unset are options; the
    INSERT fills them from [Column(default=...)]. *)
Record t : Type := mk {
  id : option Z;
  order_number : string;
  status : option string;
  payment_method : option string;
  payment_status : option string;
  payment_id : option string;
  subtotal : float;
  tax_amount : option float;
  shipping_cost : option float;
  discount_amount : option float;
  total_amount : float;
  (* the address columns and the notes are nullable *)
  shipping_full_name : option text;
  shipping_phone : option text;
  shipping_address_line1 : option text;
  shipping_address_line2 : option text;
  shipping_city : option text;
  shipping_state : option text;
  shipping_pincode : option text;
  notes : option text;
  user_id : Z
}.

Definition default {A} (d : A) (v : option A) : option A :=
  match v with
  | None => Some d
  | Some _ => v
  end.

(** What the INSERT stores: the primary key and the column defaults
    [status='pending'], [payment_status='pending'], [tax_amount=0],
    [shipping_cost=0], [discount_amount=0]. *)
Definition inserted (new_id : Z) (o : t) : t :=
  mk (Some new_id) (order_number o)
     (default "pending" (status o))
     (payment_method o)
     (default "pending" (payment_status o))
     (payment_id o)
     (subtotal o)
     (default zero (tax_amount o))
     (default zero (shipping_cost o))
     (default zero (discount_amount o))
     (total_amount o)
     (shipping_full_name o) (shipping_phone o)
     (shipping_address_line1 o) (shipping_address_line2 o)
     (shipping_city o) (shipping_state o) (shipping_pincode o)
     (notes o) (user_id o).

End Order.

Module OrderItem.

Record t : Type := mk {
  quantity : Z;
  unit_price : float;
  subtotal : float;
  product_name : string;
  product_size : string;
  product_sku : string;
  order_id : Z;
  product_id : Z
}.

End OrderItem.

(* ===================================================================== *)
(** ** The database and the session *)
(* ===================================================================== *)

Record Database : Type := mkDatabase {
  products : gmap Z Product.t;
  cart_items : list CartItem.t;
  orders : list Order.t;
  order_items : list OrderItem.t
}.

Definition set_products (f : gmap Z Product.t -> gmap Z Product.t)
    (db : Database) : Database :=
  mkDatabase (f (products db)) (cart_items db) (orders db) (order_items db).

Definition set_cart_items (f : list CartItem.t -> list CartItem.t)
    (db : Database) : Database :=
  mkDatabase (products db) (f (cart_items db)) (orders db) (order_items db).

Definition set_orders (f : list Order.t -> list Order.t)
    (db : Database) : Database :=
  mkDatabase (products db) (cart_items db) (f (orders db)) (order_items db).

Definition set_order_items (f : list OrderItem.t -> list OrderItem.t)
    (db : Database) : Database :=
  mkDatabase (products db) (cart_items db) (orders db) (f (order_items db)).

(** [db.session] during a request.  [committed] is what the data store
    holds: what the request found and what the next request will find.
    [pending] is the open transaction: the same rows with everything the
    request has added, changed and deleted so far, flushed or not.  The
    queries of the request read [pending]. *)
Record Session : Type := mkSession {
  committed : Database;
  pending : Database
}.

(** The session at the start of a request. *)
Definition begin (db : Database) : Session := mkSession db db.

(** A statement run against the session: it answers or raises, and in
    both cases leaves a session behind.  What was staged before an
    exception is still staged after it. *)
Definition Tx (A : Type) : Type := Session -> result A * Session.

Definition tx_ret {A} (a : A) : Tx A := fun s => (ok a, s).

Definition tx_raise {A} (e : exn) : Tx A := fun s => (raise e, s).

Definition tx_bind {A B} (c : Tx A) (k : A -> Tx B) : Tx B :=
  fun s =>
    match c s with
    | (inl a, s') => k a s'
    | (inr e, s') => (inr e, s')
    end.

Definition tx_lift {A} (r : result A) : Tx A := fun s => (r, s).

(** Reading goes to the open transaction. *)
Definition tx_get : Tx Database := fun s => (ok (pending s), s).

(** So does writing: [add], an attribute assignment, a DELETE. *)
Definition tx_modify (f : Database -> Database) : Tx unit :=
  fun s => (ok tt, mkSession (committed s) (f (pending s))).

(** [db.session.rollback()]: the open transaction is dropped. *)
Definition rollback (s : Session) : Session :=
  mkSession (committed s) (committed s).

Notation "'let*' x ':=' c 'in' k" := (tx_bind c (fun x => k))
  (at level 10, x name, c at level 100, k at level 200, only parsing).

Notation "c ';;;' k" := (tx_bind c (fun _ => k))
  (at level 100, k at level 200, right associativity, only parsing).

Fixpoint tx_for {A} (l : list A) (body : A -> Tx unit) : Tx unit :=
  match l with
  | [] => tx_ret tt
  | x :: rest => body x ;;; tx_for rest body
  end.

(** Points at which the data store can refuse the transaction. *)
Inductive stage : Type := AtFlush | AtDelete | AtCommit.

Definition stage_eqb (a b : stage) : bool :=
  match a, b with
  | AtFlush, AtFlush | AtDelete, AtDelete | AtCommit, AtCommit => true
  | _, _ => false
  end.

(** The rows that [CartItem.query.filter_by(user_id=...)] selects, in
    the order of the table.  The order in which a query hands them out
    is another matter: see [query_all]. *)
Definition cart_of (user : Z) (db : Database) : list CartItem.t :=
  List.filter (fun c => CartItem.user_id c =? user) (cart_items db).

(** Rows sorted by [rank], rows of equal rank in the order they had. *)
Fixpoint insert_by (rank : CartItem.t -> Z) (c : CartItem.t)
    (sorted : list CartItem.t) : list CartItem.t :=
  match sorted with
  | [] => [c]
  | x :: rest =>
      if rank c <=? rank x then c :: sorted
      else x :: insert_by rank c rest
  end.

Definition sort_by (rank : CartItem.t -> Z) (rows : list CartItem.t)
  : list CartItem.t :=
  List.fold_right (insert_by rank) [] rows.

(** The next value of an autoincrement primary key. *)
Definition next_id (ids : list Z) : Z :=
  1 + List.fold_right Z.max 0 ids.

(* ===================================================================== *)
(** ** Strings: digits, [strftime], [uuid4().hex], [upper] *)
(* ===================================================================== *)

Definition digit (d : Z) : ascii :=
  ascii_of_N (48 + Z.to_N d).

Definition is_digit (c : ascii) : bool :=
  ((48 <=? N_of_ascii c) && (N_of_ascii c <=? 57))%N.

Definition hexdigit (n : Z) : ascii :=
  if n <? 10 then digit n else ascii_of_N (87 + Z.to_N n).

(** One of [0123456789ABCDEF]. *)
Definition is_upper_hex (c : ascii) : bool :=
  (is_digit c || ((65 <=? N_of_ascii c) && (N_of_ascii c <=? 70)))%N.

(** [str.upper] on one character (ASCII letters). *)
Definition upper_char (c : ascii) : ascii :=
  if ((97 <=? N_of_ascii c) && (N_of_ascii c <=? 122))%N
  then ascii_of_N (N_of_ascii c - 32)
  else c.

Fixpoint upper (s : string) : string :=
  match s with
  | EmptyString => EmptyString
  | String c rest => String (upper_char c) (upper rest)
  end.

Fixpoint string_forall (p : ascii -> bool) (s : string) : bool :=
  match s with
  | EmptyString => true
  | String c rest => p c && string_forall p rest
  end.

(** The decimal digits of [n >= 0], most significant first, no padding. *)
Fixpoint decimal_digits (fuel : nat) (n : Z) (acc : string) : string :=
  let acc' := String (digit (n mod 10)) acc in
  match fuel with
  | O => acc'
  | S fuel' => if n <? 10 then acc' else decimal_digits fuel' (n / 10) acc'
  end.

Definition decimal (n : Z) : string :=
  decimal_digits (Z.to_nat n) n "".

(** An int inside an f-string. *)
Definition str (n : Z) : string :=
  if n <? 0 then "-" ++ decimal (- n) else decimal n.

Definition two_digits (n : Z) : string :=
  String (digit (n / 10)) (String (digit (n mod 10)) "").

Record Date : Type := mkDate { year : Z; month : Z; day : Z }.

(** A date that [datetime.now()] can return and that [%Y] prints with
    four digits on every platform. *)
Definition four_digit_date (d : Date) : Prop :=
  1000 <= year d <= 9999 /\ 1 <= month d <= 12 /\ 1 <= day d <= 31.

(** [strftime('%Y%m%d')] *)
Definition strftime_Ymd (d : Date) : string :=
  decimal (year d) ++ two_digits (month d) ++ two_digits (day d).

(** [k] hexadecimal digits of [u], most significant first. *)
Fixpoint hex_digits (k : nat) (u : Z) : string :=
  match k with
  | O => ""
  | S k' => String (hexdigit ((u / 16 ^ Z.of_nat k') mod 16)) (hex_digits k' u)
  end.

(** [uuid.UUID.hex]: the 128-bit value as 32 lowercase digits. *)
Definition uuid_hex (u : Z) : string := hex_digits 32 u.

(* ===================================================================== *)
(** ** blueprints/forms.py: CheckoutForm *)
(* ===================================================================== *)

(** The validators read [field.data]: the text the request carries for
    the field, [None] when it carries none. *)

(** [DataRequired()] followed by [Length(min, max)]: the data must be
    there and hold more than whitespace, and its length, counted in
    characters, must lie between [min] and [max]. *)
Definition required_length (min max : Z) (data : option text) : bool :=
  match data with
  | Some d => negb (blank d) && (min <=? len d) && (len d <=? max)
  | None => false
  end.

(** [Optional()] followed by [Length(max=...)]: without input, or with
    whitespace only, the chain stops and the field is valid. *)
Definition optional_length (max : Z) (data : option text) : bool :=
  match data with
  | Some d => blank d || (len d <=? max)
  | None => true
  end.

Record CheckoutForm : Type := mkCheckoutForm {
  full_name : option text;
  phone : option text;
  address_line1 : option text;
  address_line2 : option text;
  city : option text;
  state : option text;
  pincode : option text;
  notes : option text
}.

Definition validate (f : CheckoutForm) : bool :=
  required_length (-1) 120 (full_name f)
  && required_length 10 20 (phone f)
  && required_length (-1) 200 (address_line1 f)
  && optional_length 200 (address_line2 f)
  && required_length (-1) 100 (city f)
  && required_length (-1) 100 (state f)
  && required_length 6 10 (pincode f).

Inductive http_method : Type := GET | POST.

Record Request : Type := mkRequest {
  method : http_method;
  csrf_ok : bool;
  form : CheckoutForm
}.

(** [form.validate_on_submit()] *)
Definition validate_on_submit (req : Request) : bool :=
  match method req with
  | POST => csrf_ok req && validate (form req)
  | GET => false
  end.

(** [sum] over floats: a running float sum up to CPython 3.11, the
    compensated summation of Neumaier from CPython 3.12 on. *)
Inductive interpreter : Type := CPython_3_11 | CPython_3_12.

(** What the request draws from outside the database: the clock, the two
    [uuid4()] values in the order they are drawn, the stage, if any, at
    which the data store refuses the transaction, the interpreter that
    runs the view, and the order in which the data store returns the rows
    of a query on [cart_items] that has no ORDER BY (by [CartItem.id]
    when it walks the table, by [CartItem.product_id] when it walks the
    index of [unique_user_product], or any other). *)
Record Env : Type := mkEnv {
  now : Date;
  uuid_first : Z;
  uuid_second : Z;
  store_fault : option stage;
  python : interpreter;
  row_rank : CartItem.t -> Z
}.

(** [Query.all()] on rows of [cart_items] selected without ORDER BY. *)
Definition query_all (env : Env) (rows : list CartItem.t)
  : list CartItem.t :=
  sort_by (row_rank env) rows.

Definition fails_at (env : Env) (st : stage) : bool :=
  match store_fault env with
  | Some s => stage_eqb s st
  | None => false
  end.

(* ===================================================================== *)
(** ** Responses *)
(* ===================================================================== *)

Inductive url : Type :=
| url_for (endpoint : string)
| url_for_order (endpoint : string) (order_number : string)
| external (location : string).

Module Totals.

Record t : Type := mk {
  subtotal : float;
  tax_amount : float;
  shipping_cost : float;
  total_amount : float
}.

End Totals.

(** What a view returns; [flashed] is the message and its category. *)
Inductive response : Type :=
| redirect (location : url) (flashed : option (string * string))
| render_template (template : string) (totals : Totals.t)
| not_found
| server_error (e : exn).

(* ===================================================================== *)
(** ** blueprints/checkout.py *)
(* ===================================================================== *)

(** The float loop of [sum] from CPython 3.12 on: [f] is the running
    sum and [c] the compensation, added at the end unless it is zero, an
    infinity or a NaN. *)
Fixpoint neumaier (f c : float) (xs : list float) : float :=
  match xs with
  | [] =>
      if negb (feq c zero) && is_finite c then fadd f c else f
  | x :: rest =>
      let t := fadd f x in
      let c' :=
        if fle (fabs x) (fabs f)
        then fadd c (fadd (fsub f t) x)
        else fadd c (fadd (fsub x t) f) in
      neumaier t c' rest
  end.

(** [sum(xs)] for floats [xs]: the start value is the int [0], the first
    item is added to it, and the float loop takes the rest. *)
Definition py_sum (py : interpreter) (xs : list float) : float :=
  match py with
  | CPython_3_11 => List.fold_left fadd xs zero
  | CPython_3_12 =>
      match xs with
      | [] => zero
      | x :: rest => neumaier (fadd zero x) zero rest
      end
  end.

(** The values that the generator [item.get_subtotal() for item in
    cart_items] yields, up to the first that raises. *)
Fixpoint subtotals (db : Database) (items : list CartItem.t)
  : result (list float) :=
  match items with
  | [] => ok []
  | item :: rest =>
      rbind (CartItemMethods.get_subtotal
               (products db !! CartItem.product_id item) item)
            (fun x => rbind (subtotals db rest) (fun xs => ok (x :: xs)))
  end.

(** [sum(item.get_subtotal() for item in cart_items)] *)
Definition sum_subtotals (env : Env) (db : Database)
    (items : list CartItem.t) : result float :=
  rbind (subtotals db items) (fun xs => ok (py_sum (python env) xs)).

Definition tax_rate : float := float_of_ratio false 5 100.

(** Lines 27 to 31 of [checkout]. *)
Definition checkout_totals (env : Env) (db : Database)
    (items : list CartItem.t) : result Totals.t :=
  rbind (sum_subtotals env db items) (fun subtotal =>
  let tax_amount := round2 (fmul subtotal tax_rate) in
  let shipping_cost :=
    if flt (float_of_Z 500) subtotal then float_of_Z 0 else float_of_Z 50 in
  let total_amount := fadd (fadd subtotal tax_amount) shipping_cost in
  ok (Totals.mk subtotal tax_amount shipping_cost total_amount)).

Definition new_order_number (env : Env) : string :=
  "ORD-" ++ strftime_Ymd (now env) ++ "-"
         ++ upper (substring 0 8 (uuid_hex (uuid_first env))).

Definition new_order (current_user : Z) (f : CheckoutForm) (env : Env)
    (totals : Totals.t) : Order.t :=
  Order.mk None
    (new_order_number env)
    (Some "confirmed")
    (Some "razorpay_mock")
    (Some "paid")
    (Some ("pay_" ++ substring 0 16 (uuid_hex (uuid_second env))))
    (Totals.subtotal totals)
    (Some (Totals.tax_amount totals))
    (Some (Totals.shipping_cost totals))
    None
    (Totals.total_amount totals)
    (full_name f) (phone f) (address_line1 f) (address_line2 f)
    (city f) (state f) (pincode f) (notes f)
    current_user.

(** [db.session.add(order); db.session.flush()]: the INSERT runs inside
    the transaction; [order_number] is unique. *)
Definition add_and_flush (env : Env) (o : Order.t) : Tx Z :=
  let* s := tx_get in
  if fails_at env AtFlush then tx_raise OperationalError
  else if existsb (String.eqb (Order.order_number o))
                  (List.map Order.order_number (orders s))
  then tx_raise IntegrityError
  else
    let new_id := next_id (omap Order.id (orders s)) in
    tx_modify (set_orders (fun l => (l ++ [Order.inserted new_id o])%list)) ;;;
    tx_ret new_id.

(** The body of the [for cart_item in cart_items] loop. *)
Definition order_line (order_id : Z) (cart_item : CartItem.t) : Tx unit :=
  let* s := tx_get in
  let product := products s !! CartItem.product_id cart_item in
  match product with
  | None => tx_raise AttributeError
  | Some p =>
      let* unit_price := tx_lift (Product.get_discounted_price p) in
      let* line := tx_lift (CartItemMethods.get_subtotal product cart_item) in
      tx_modify (set_order_items (fun l => (l ++
        [OrderItem.mk (CartItem.quantity cart_item) unit_price line
           (Product.name p) (Product.size p) (Product.sku p)
           order_id (CartItem.product_id cart_item)])%list)) ;;;
      tx_modify (set_products
        <[CartItem.product_id cart_item :=
            Product.set_stock_quantity
              (Product.stock_quantity p - CartItem.quantity cart_item) p]>)
  end.

(** [CartItem.query.filter_by(user_id=current_user.id).delete()] *)
Definition clear_cart_of (env : Env) (current_user : Z) : Tx unit :=
  if fails_at env AtDelete then tx_raise OperationalError
  else tx_modify (set_cart_items
         (List.filter (fun c => negb (CartItem.user_id c =? current_user)))).

(** [db.session.commit()]: the data store takes the open transaction as
    a whole, or refuses it and keeps what it held. *)
Definition commit (env : Env) : Tx unit :=
  fun s =>
    if fails_at env AtCommit then (raise OperationalError, s)
    else (ok tt, mkSession (pending s) (pending s)).

(** The body of the [try] block.  [flash] and [redirect], which follow
    the commit, do not touch the session. *)
Definition place_order (current_user : Z) (f : CheckoutForm) (env : Env)
    (totals : Totals.t) (items : list CartItem.t) : Tx string :=
  let order_number := new_order_number env in
  let* order_id := add_and_flush env (new_order current_user f env totals) in
  tx_for items (order_line order_id) ;;;
  clear_cart_of env current_user ;;;
  commit env ;;;
  tx_ret order_number.

Definition cart_is_empty : response :=
  redirect (url_for "products.list_products")
           (Some ("Your cart is empty.", "warning")).

Definition order_placed (order_number : string) : response :=
  redirect (url_for_order "checkout.order_confirmation" order_number)
           (Some ("Order placed successfully!", "success")).

Definition order_error : response :=
  redirect (url_for "checkout.checkout")
    (Some ("An error occurred while processing your order. Please try again.",
           "danger")).

(** The view [checkout]: the response, and the database that the data
    store holds after the request.  The [try] block runs in the session
    of the request; the [except] clause rolls that session back.  Before
    the [try] block the view only reads. *)
Definition checkout (current_user : Z) (req : Request) (env : Env)
    (db : Database) : response * Database :=
  let items := query_all env (cart_of current_user db) in
  match items with
  | [] => (cart_is_empty, db)
  | _ :: _ =>
      match checkout_totals env db items with
      | inr e => (server_error e, db)
      | inl totals =>
          if validate_on_submit req then
            match place_order current_user (form req) env totals items
                    (begin db) with
            | (inl order_number, s) =>
                (order_placed order_number, committed s)
            | (inr _, s) => (order_error, committed (rollback s))
            end
          else (render_template "checkout/checkout.html" totals, db)
      end
  end.

(* ===================================================================== *)
(** ** blueprints/cart.py: add_to_cart *)
(* ===================================================================== *)

(** [redirect(request.referrer or url_for(endpoint))] *)
Definition back_or (referrer : option string) (endpoint : string) : url :=
  match referrer with
  | Some (String c r) => external (String c r)
  | Some EmptyString | None => url_for endpoint
  end.

(** The view [add_to_cart]; [form_quantity] is what
    [request.form.get('quantity', 1, type=int)] reads, [None] when the
    field is absent or not an int. *)
Definition add_to_cart (current_user product_id : Z)
    (form_quantity : option Z) (referrer : option string) (env : Env)
    (db : Database) : response * Database :=
  match products db !! product_id with
  | None => (not_found, db)
  | Some product =>
      if negb (Product.is_active product) || negb (Product.is_in_stock product)
      then (redirect (back_or referrer "products.list_products")
              (Some ("Product is currently unavailable.", "warning")), db)
      else
        let quantity := default 1 form_quantity in
        if quantity <? 1
        then (redirect (back_or referrer "products.list_products")
                (Some ("Invalid quantity.", "danger")), db)
        else if Product.stock_quantity product <? quantity
        then (redirect (back_or referrer "products.list_products")
                (Some ("Only " ++ str (Product.stock_quantity product)
                       ++ " items available in stock.", "warning")), db)
        else
          let mine c :=
            (CartItem.user_id c =? current_user)
            && (CartItem.product_id c =? product_id) in
          match List.find mine (cart_items db) with
          | Some cart_item =>
              let new_quantity := CartItem.quantity cart_item + quantity in
              if Product.stock_quantity product <? new_quantity
              then (redirect (back_or referrer "products.list_products")
                      (Some ("Cannot add more. Only "
                             ++ str (Product.stock_quantity product)
                             ++ " items available.", "warning")), db)
              else if fails_at env AtCommit
              then (redirect (back_or referrer "cart.view_cart")
                      (Some ("Error adding item to cart.", "danger")), db)
              else
                (redirect (back_or referrer "cart.view_cart")
                   (Some ("Updated " ++ Product.name product
                          ++ " quantity in cart.", "success")),
                 set_cart_items
                   (List.map (fun c =>
                      if CartItem.id c =? CartItem.id cart_item
                      then CartItem.set_quantity new_quantity c else c)) db)
          | None =>
              if fails_at env AtCommit
              then (redirect (back_or referrer "cart.view_cart")
                      (Some ("Error adding item to cart.", "danger")), db)
              else
                let new_id := next_id (List.map CartItem.id (cart_items db)) in
                (redirect (back_or referrer "cart.view_cart")
                   (Some ("Added " ++ Product.name product ++ " to cart.",
                          "success")),
                 set_cart_items (fun l =>
                   (l ++ [CartItem.mk new_id quantity current_user
                            product_id])%list) db)
          end
  end.

(* ===================================================================== *)
(** ** Sample data *)
(* ===================================================================== *)

Module Sample.

(** The float written [n / d] as a decimal literal, e.g. [dec 5 100]
    for [0.05]. *)
Definition dec (n d : positive) : float := float_of_ratio false n d.

Definition oil (price : float) (discount : option float) (stock : Z)
    (active : bool) : Product.t :=
  Product.mk "Rice Bran Oil" "1L" "RBO-1L" price discount stock active.

Definition field (s : string) : option text := Some (text_of s).

Definition shipping_info : CheckoutForm :=
  mkCheckoutForm (field "Test User") (field "1234567890")
                 (field "123 Test St") (field "Unit 1")
                 (field "Test City") (field "Test State")
                 (field "123456") (field "Leave at door").

Definition submit : Request := mkRequest POST true shipping_info.

(** A form in Devanagari: ten digits as the phone number, a no-break
    space inside the name, and no second address line and no notes in
    the request. *)
Definition hindi_info : CheckoutForm :=
  mkCheckoutForm
    (Some [0x930; 0x92E; 0x947; 0x936; 0xA0; 0x915; 0x941; 0x92E; 0x93E; 0x930])
    (Some [0x967; 0x968; 0x969; 0x96A; 0x96B; 0x96C; 0x96D; 0x96E; 0x96F;
           0x966])
    (Some [0x967; 0x968; 0x20; 0x92E; 0x93E; 0x930; 0x94D; 0x917])
    None
    (Some [0x92A; 0x941; 0x923; 0x947])
    (Some [0x92E; 0x939; 0x93E; 0x930; 0x93E; 0x937; 0x94D; 0x91F; 0x94D;
           0x930])
    (Some [0x96A; 0x967; 0x967; 0x966; 0x966; 0x967])
    None.

Definition hindi_submit : Request := mkRequest POST true hindi_info.

(** The rows come by [CartItem.id], the order of the table. *)
Definition env_a : Env :=
  mkEnv (mkDate 2024 3 9)
        0xdeadbeef0123456789abcdef01234567
        0x0123456789abcdef0123456789abcdef None
        CPython_3_11 CartItem.id.

Definition env_b : Env :=
  mkEnv (mkDate 2024 3 9)
        0x00c0ffee0123456789abcdef01234567
        0x89abcdef0123456789abcdef01234567 None
        CPython_3_11 CartItem.id.

(** The rows come by [CartItem.product_id], the order of the index of
    [unique_user_product]. *)
Definition env_index (py : interpreter) : Env :=
  mkEnv (mkDate 2024 3 9)
        0xdeadbeef0123456789abcdef01234567
        0x0123456789abcdef0123456789abcdef None
        py CartItem.product_id.

(** Three products at 0.10, 0.20 and 0.30, put in the cart of user 7 in
    the order 3, 2, 1. *)
Definition three_lines : Database :=
  mkDatabase
    (<[3 := Product.mk "Groundnut Oil" "1L" "GNO-1L" (dec 3 10) (Some zero)
              50 true]>
       (<[2 := Product.mk "Sesame Oil" "1L" "SSO-1L" (dec 2 10) (Some zero)
                 50 true]>
          {[ 1 := Product.mk "Rice Bran Oil" "1L" "RBO-1L" (dec 1 10)
                    (Some zero) 50 true ]}))
    [CartItem.mk 1 1 7 3; CartItem.mk 2 1 7 2; CartItem.mk 3 1 7 1] [] [].

Definition shop (p : Product.t) (cart : list CartItem.t) : Database :=
  mkDatabase {[ 1 := p ]} cart [] [].

(** One line: price 100, discount 10 %, quantity 2. *)
Definition discounted_cart : Database :=
  shop (oil (float_of_Z 100) (Some (float_of_Z 10)) 50 true)
       [CartItem.mk 1 2 7 1].

(** One line: price 4.50, no discount, quantity 1. *)
Definition small_cart : Database :=
  shop (oil (dec 45 10) (Some zero) 50 true) [CartItem.mk 1 1 7 1].

(** A price with three decimals and no discount. *)
Definition eighth : Product.t := oil (dec 125 1000) (Some zero) 50 true.

(** The last unit: users 7 and 8 each put one unit in their cart while
    one is in stock, then both check out, one after the other. *)
Definition last_unit_0 : Database :=
  shop (oil (float_of_Z 100) (Some zero) 1 true) [].
Definition last_unit_1 := add_to_cart 7 1 (Some 1) None env_a last_unit_0.
Definition last_unit_2 := add_to_cart 8 1 (Some 1) None env_a (snd last_unit_1).
Definition last_unit_3 := checkout 7 submit env_a (snd last_unit_2).
Definition last_unit_4 := checkout 8 submit env_b (snd last_unit_3).

(** Two in stock: user 7 puts two in the cart, user 8 buys one, then
    user 7 checks out the two with one left. *)
Definition outsold_0 : Database :=
  shop (oil (float_of_Z 100) (Some zero) 2 true) [].
Definition outsold_1 := add_to_cart 7 1 (Some 2) None env_a outsold_0.
Definition outsold_2 := add_to_cart 8 1 (Some 1) None env_a (snd outsold_1).
Definition outsold_3 := checkout 8 submit env_a (snd outsold_2).
Definition outsold_4 := checkout 7 submit env_b (snd outsold_3).

(** The product was put in the cart while active and withdrawn from sale
    afterwards ([is_active] unset by the admin edit). *)
Definition withdrawn_1 :=
  add_to_cart 7 1 (Some 2) None env_a
    (shop (oil (float_of_Z 100) (Some zero) 50 true) []).
Definition withdrawn : Database :=
  set_products <[ 1 := oil (float_of_Z 100) (Some zero) 50 false ]>
               (snd withdrawn_1).

(** The cart line whose product row is gone. *)
Definition orphan_cart : Database :=
  mkDatabase ∅ [CartItem.mk 1 2 7 1] [] [].

(** An order number that is already taken: the first checkout of
    [discounted_cart] committed, and the next request draws the same
    [uuid4] on the same day. *)
Definition taken_0 := checkout 7 submit env_a discounted_cart.
Definition taken_1 := add_to_cart 8 1 (Some 1) None env_a (snd taken_0).
Definition taken : Database := snd taken_1.

(** The data store refuses the COMMIT. *)
Definition env_commit_refused : Env :=
  mkEnv (mkDate 2024 3 9)
        0xdeadbeef0123456789abcdef01234567
        0x0123456789abcdef0123456789abcdef (Some AtCommit)
        CPython_3_11 CartItem.id.

(** The data store refuses the DELETE on [cart_items]. *)
Definition env_delete_refused : Env :=
  mkEnv (mkDate 2024 3 9)
        0xdeadbeef0123456789abcdef01234567
        0x0123456789abcdef0123456789abcdef (Some AtDelete)
        CPython_3_11 CartItem.id.

End Sample.

(** The view answered with the redirect to the confirmation page. *)
Definition succeeded (r : response) : bool :=
  match r with
  | redirect (url_for_order _ _) _ => true
  | _ => false
  end.

(** [x] is not below zero: [x < 0] is [False]. *)
Definition not_negative (x : float) : bool := negb (flt x zero).

(** One of [0123456789abcdef]. *)
Definition is_lower_hex (c : ascii) : bool :=
  (is_digit c || ((97 <=? N_of_ascii c) && (N_of_ascii c <=? 102)))%N.

(** The amount of one line: [round(unit_price * quantity, 2)]. *)
Definition line_amount (line : float * Z) : float :=
  round2 (fmul (fst line) (float_of_Z (snd line))).

(** [lines] are the (discounted unit price, quantity) pairs of the cart
    [items]: each item has its product row, [get_discounted_price] gives
    the price of the pair and the quantity is the one of the item. *)
Definition priced (db : Database) (items : list CartItem.t)
    (lines : list (float * Z)) : Prop :=
  Forall2 (fun item line =>
    exists p,
      products db !! CartItem.product_id item = Some p
      /\ Product.get_discounted_price p = inl (fst line)
      /\ CartItem.quantity item = snd line) items lines.

(** The stock quantity of a product row, if there is one. *)
Definition stock_of (db : Database) (pid : Z) : option Z :=
  Product.stock_quantity <$> products db !! pid.

(** ** Bounds used to reason about float operations *)

(** The mantissa of a shift record is at most [2^k], and when it is equal
    to [2^k] nothing was shifted out. *)
Definition below_pow2 (mrs : shr_record) (k : Z) : Prop :=
  0 <= shr_m mrs <= 2 ^ k
  /\ (shr_m mrs = 2 ^ k -> shr_r mrs = false /\ shr_s mrs = false).

(** A float whose value is at most 1 (or a NaN). *)
Definition at_most_one (x : float) : Prop :=
  match x with
  | S754_zero _ | S754_nan => True
  | S754_finite false m e => e <= 0 /\ Zpos m <= 2 ^ (- e)
  | _ => False
  end.

(* ===================================================================== *)
(** ** blueprints/cart.py: the other views *)
(* ===================================================================== *)

(** [CartItem.query.filter_by(id=item_id, user_id=current_user.id).first()] *)
Definition own_cart_item (current_user item_id : Z) (db : Database)
  : option CartItem.t :=
  List.find (fun c => (CartItem.id c =? item_id)
                      && (CartItem.user_id c =? current_user))
            (cart_items db).

Definition to_cart (flashed : string * string) : response :=
  redirect (url_for "cart.view_cart") (Some flashed).

(** The view [view_cart]: the lines of the user and their subtotal, or
    the exception that leaves the view. *)
Definition view_cart (current_user : Z) (env : Env) (db : Database)
  : result (list CartItem.t * float) :=
  let items := query_all env (cart_of current_user db) in
  rbind (sum_subtotals env db items) (fun subtotal => ok (items, subtotal)).

(** The view [update_cart_item]. *)
Definition update_cart_item (current_user item_id : Z)
    (form_quantity : option Z) (env : Env) (db : Database)
  : response * Database :=
  match own_cart_item current_user item_id db with
  | None => (not_found, db)
  | Some cart_item =>
      let quantity := default 1 form_quantity in
      if quantity <? 1
      then (to_cart ("Invalid quantity.", "danger"), db)
      else
        match products db !! CartItem.product_id cart_item with
        | None => (server_error AttributeError, db)
        | Some product =>
            if Product.stock_quantity product <? quantity
            then (to_cart ("Only " ++ str (Product.stock_quantity product)
                           ++ " items available in stock.", "warning"), db)
            else if fails_at env AtCommit
            then (to_cart ("Error updating cart.", "danger"), db)
            else
              (to_cart ("Cart updated successfully.", "success"),
               set_cart_items
                 (List.map (fun c =>
                    if CartItem.id c =? CartItem.id cart_item
                    then CartItem.set_quantity quantity c else c)) db)
        end
  end.

(** The view [remove_from_cart]. *)
Definition remove_from_cart (current_user item_id : Z) (env : Env)
    (db : Database) : response * Database :=
  match own_cart_item current_user item_id db with
  | None => (not_found, db)
  | Some cart_item =>
      if fails_at env AtDelete || fails_at env AtCommit
      then (to_cart ("Error removing item from cart.", "danger"), db)
      else
        (to_cart ("Item removed from cart.", "success"),
         set_cart_items
           (List.filter (fun c =>
              negb (CartItem.id c =? CartItem.id cart_item))) db)
  end.

(** The view [clear_cart]. *)
Definition clear_cart (current_user : Z) (env : Env) (db : Database)
  : response * Database :=
  if fails_at env AtDelete || fails_at env AtCommit
  then (to_cart ("Error clearing cart.", "danger"), db)
  else
    (to_cart ("Cart cleared successfully.", "success"),
     set_cart_items
       (List.filter (fun c => negb (CartItem.user_id c =? current_user))) db).

(* ===================================================================== *)
(** ** blueprints/checkout.py: the order pages *)
(* ===================================================================== *)

(** [Order.query.filter_by(order_number=..., user_id=...).first_or_404()],
    the query of [order_confirmation] and of [order_detail]; [None] is
    the 404 answer. *)
Definition order_confirmation (order_number : string) (current_user : Z)
    (db : Database) : option Order.t :=
  List.find (fun o => String.eqb (Order.order_number o) order_number
                      && (Order.user_id o =? current_user))
            (orders db).

Definition order_detail := order_confirmation.

(* ===================================================================== *)
(** ** Constraints of the tables *)
(* ===================================================================== *)

(** The primary key of [cart_items], its constraint
    [unique_user_product], and quantities of at least one. *)
Definition cart_constraints (db : Database) : Prop :=
  NoDup (List.map CartItem.id (cart_items db))
  /\ NoDup (List.map (fun c => (CartItem.user_id c, CartItem.product_id c))
                     (cart_items db))
  /\ Forall (fun c => 1 <= CartItem.quantity c) (cart_items db).

(** The units of product [pid] on the cart lines [items]. *)
Definition units_of (pid : Z) (items : list CartItem.t) : Z :=
  List.fold_right Z.add 0
    (List.map CartItem.quantity
       (List.filter (fun c => CartItem.product_id c =? pid) items)).

(** The order item that the loop of [checkout] stores for a cart line,
    read from the product row [p]. *)
Definition snapshot (order_id : Z) (c : CartItem.t) (p : Product.t)
    (unit_price : float) : OrderItem.t :=
  OrderItem.mk (CartItem.quantity c) unit_price
    (round2 (fmul unit_price (float_of_Z (CartItem.quantity c))))
    (Product.name p) (Product.size p) (Product.sku p)
    order_id (CartItem.product_id c).

(** Two product rows that differ at most in [stock_quantity]. *)
Definition same_but_stock (p q : Product.t) : Prop :=
  Product.set_stock_quantity 0 p = Product.set_stock_quantity 0 q.

(* ===================================================================== *)
(** ** models.py: User, and the rating distribution of a product *)
(* ===================================================================== *)

Module User.

Record t : Type := mk {
  id : Z;
  username : string;
  user_type : string;
  is_active : bool
}.

Definition is_admin (self : t) : bool :=
  String.eqb (user_type self) "admin".

(** [UserMixin.is_authenticated]: the value of [is_active], here the
    column of the account. *)
Definition is_authenticated (self : t) : bool := is_active self.

End User.

(** [Product.get_rating_distribution] over the ratings of the reviews of
    the product: a dict with the keys 5 to 1, and [dict[rating] += 1] for
    every review; [None] is the [KeyError] of a rating that is no key. *)
Definition get_rating_distribution (ratings : list Z) : option (gmap Z Z) :=
  List.fold_left
    (fun acc rating =>
       match acc with
       | Some distribution =>
           match distribution !! rating with
           | Some n => Some (<[rating := n + 1]> distribution)
           | None => None
           end
       | None => None
       end)
    ratings
    (Some (<[5 := 0]> (<[4 := 0]> (<[3 := 0]> (<[2 := 0]> (<[1 := 0]> ∅)))))).

(** The number of reviews with rating [k]. *)
Definition count_rating (k : Z) (ratings : list Z) : Z :=
  Z.of_nat (List.length (List.filter (Z.eqb k) ratings)).

(* ===================================================================== *)
(** ** blueprints/admin.py *)
(* ===================================================================== *)

(** [str.lower] on one character (ASCII letters). *)
Definition lower_char (c : ascii) : ascii :=
  if ((65 <=? N_of_ascii c) && (N_of_ascii c <=? 90))%N
  then ascii_of_N (N_of_ascii c + 32)
  else c.

Fixpoint lower (s : string) : string :=
  match s with
  | EmptyString => EmptyString
  | String c rest => String (lower_char c) (lower rest)
  end.

Definition is_dot (c : ascii) : bool := Ascii.eqb c ".".

(** [filename.rsplit('.', 1)[1]]: what follows the last dot; [None]
    when there is no dot, where Python finds no second element. *)
Fixpoint after_last_dot (filename : string) : option string :=
  match filename with
  | EmptyString => None
  | String c rest =>
      match after_last_dot rest with
      | Some extension => Some extension
      | None => if is_dot c then Some rest else None
      end
  end.

Definition ALLOWED_EXTENSIONS : list string :=
  ["png"; "jpg"; "jpeg"; "gif"; "webp"].

(** ['.' in filename and
     filename.rsplit('.', 1)[1].lower() in ALLOWED_EXTENSIONS] *)
Definition allowed_file (filename : string) : bool :=
  match after_last_dot filename with
  | Some extension =>
      existsb (String.eqb (lower extension)) ALLOWED_EXTENSIONS
  | None => false
  end.

(** [_shift_month]: the first day of the month [offset] months from
    [reference]; [None] is the [ValueError] of [replace] for a year
    outside 1 to 9999.  [//] and [%] round towards minus infinity, as
    [Z.div] and [Z.modulo] do for the divisor 12. *)
Definition _shift_month (reference : Date) (offset : Z) : option Date :=
  let y := year reference + ((month reference - 1 + offset) / 12) in
  let m := (month reference - 1 + offset) mod 12 + 1 in
  if (1 <=? y) && (y <=? 9999) then Some (mkDate y m 1) else None.

(** What the admin views answer. *)
Inductive admin_response : Type :=
| admin_not_found
| admin_to_login (flashed : string * string)
| admin_denied (flashed : string * string)
| to_order_detail (order_id : Z) (flashed : string * string).

(** [current_user.is_authenticated]; [current_user] is [None] for a
    visitor who is not logged in, the anonymous user of Flask-Login. *)
Definition is_authenticated (current_user : option User.t) : bool :=
  match current_user with
  | Some u => User.is_authenticated u
  | None => false
  end.

(** The decorator [login_required] of Flask-Login on a POST route:
    [login_manager.unauthorized()] flashes the login message and
    redirects to the login view. *)
Definition login_required {A} (current_user : option User.t)
    (view : A -> admin_response * A) (db : A) : admin_response * A :=
  if is_authenticated current_user then view db
  else (admin_to_login ("Please log in to access this page.", "info"), db).

(** The decorator [admin_required]. *)
Definition admin_required {A} (current_user : option User.t)
    (view : A -> admin_response * A) (db : A) : admin_response * A :=
  match current_user with
  | Some u =>
      if negb (User.is_authenticated u) || negb (User.is_admin u)
      then (admin_denied
              ("You do not have permission to access this page.", "danger"),
            db)
      else view db
  | None =>
      (admin_denied
         ("You do not have permission to access this page.", "danger"), db)
  end.

Definition valid_statuses : list string :=
  ["pending"; "confirmed"; "processing"; "shipped"; "delivered"; "cancelled"].

Definition set_order_status (s : string) (o : Order.t) : Order.t :=
  Order.mk (Order.id o) (Order.order_number o) (Some s)
    (Order.payment_method o) (Order.payment_status o) (Order.payment_id o)
    (Order.subtotal o) (Order.tax_amount o) (Order.shipping_cost o)
    (Order.discount_amount o) (Order.total_amount o)
    (Order.shipping_full_name o) (Order.shipping_phone o)
    (Order.shipping_address_line1 o) (Order.shipping_address_line2 o)
    (Order.shipping_city o) (Order.shipping_state o)
    (Order.shipping_pincode o) (Order.notes o) (Order.user_id o).

Definition has_id (order_id : Z) (o : Order.t) : bool :=
  match Order.id o with
  | Some i => i =? order_id
  | None => false
  end.

(** The view [update_order_status] behind its two decorators;
    [form_status] is [request.form.get('status')]. *)
Definition update_order_status (current_user : option User.t)
    (order_id : Z) (form_status : option string) (env : Env)
  : Database -> admin_response * Database :=
  login_required current_user (admin_required current_user (fun db =>
    match List.find (has_id order_id) (orders db) with
    | None => (admin_not_found, db)
    | Some order =>
        match form_status with
        | Some new_status =>
            if existsb (String.eqb new_status) valid_statuses
            then
              if fails_at env AtCommit
              then (to_order_detail order_id
                      ("Error updating order status.", "danger"), db)
              else
                (to_order_detail order_id
                   ("Order status updated successfully!", "success"),
                 set_orders
                   (List.map (fun o =>
                      if has_id order_id o
                      then set_order_status new_status o else o)) db)
            else (to_order_detail order_id ("Invalid status.", "danger"), db)
        | None => (to_order_detail order_id ("Invalid status.", "danger"), db)
        end
    end)).

(** Every stored order carries one of the six statuses. *)
Definition statuses_valid (db : Database) : Prop :=
  Forall (fun o => exists s, Order.status o = Some s /\ In s valid_statuses)
         (orders db).

(** Two order rows that differ at most in [status]. *)
Definition same_but_status (o o' : Order.t) : Prop :=
  set_order_status "" o = set_order_status "" o'.

(* ===================================================================== *)
(** ** blueprints/wishlist.py: move_to_cart *)
(* ===================================================================== *)

Module WishlistItem.

Record t : Type := mk {
  id : Z;
  user_id : Z;
  product_id : Z
}.

End WishlistItem.

(** The database together with the table [wishlist_items]. *)
Record Store : Type := mkStore {
  store_db : Database;
  wishlist_items : list WishlistItem.t
}.

(** What a wishlist view answers: the JSON payload of [_json_response],
    or a flash message and a redirect. *)
Inductive wishlist_response : Type :=
| wishlist_json (success : bool) (message status : string)
    (wishlistCount : Z) (cartCount : option Z)
    (action : option string) (movedId : option Z)
| wishlist_redirect (location : url) (flashed : string * string).

(** [_json_response(success, message, status, **extra)] when
    [_wants_json_response()], the flash and the redirect otherwise. *)
Definition wishlist_answer (wants_json : bool) (current_user : Z)
    (s : Store) (success : bool) (message status : string)
    (action : option string) (movedId : option Z) (location : url)
  : wishlist_response :=
  if wants_json
  then
    wishlist_json success message status
      (Z.of_nat (List.length
         (List.filter (fun w => WishlistItem.user_id w =? current_user)
                      (wishlist_items s))))
      (if success
       then Some (Z.of_nat (List.length (cart_of current_user (store_db s))))
       else None)
      action movedId
  else wishlist_redirect location (message, status).

(** The view [move_to_cart]. *)
Definition move_to_cart (current_user item_id : Z) (wants_json : bool)
    (referrer : option string) (env : Env) (s : Store)
  : wishlist_response * Store :=
  let db := store_db s in
  match List.find (fun w => (WishlistItem.id w =? item_id)
                            && (WishlistItem.user_id w =? current_user))
                  (wishlist_items s) with
  | None =>
      (wishlist_answer wants_json current_user s false
         "Wishlist item not found." "warning" None None
         (back_or referrer "wishlist.view_wishlist"), s)
  | Some wishlist_item =>
      let unavailable :=
        (wishlist_answer wants_json current_user s false
           "Product is currently unavailable to purchase." "warning"
           None None (back_or referrer "wishlist.view_wishlist"), s) in
      match products db !! WishlistItem.product_id wishlist_item with
      | None => unavailable
      | Some product =>
          if negb (Product.is_active product)
             || negb (Product.is_in_stock product)
          then unavailable
          else if fails_at env AtDelete || fails_at env AtCommit
          then
            (wishlist_answer wants_json current_user s false
               "Could not move item to cart. Please try again." "danger"
               None None (back_or referrer "wishlist.view_wishlist"), s)
          else
            let mine c :=
              (CartItem.user_id c =? current_user)
              && (CartItem.product_id c
                  =? WishlistItem.product_id wishlist_item) in
            let cart' :=
              match List.find mine (cart_items db) with
              | Some cart_item =>
                  let new_quantity :=
                    Z.min (CartItem.quantity cart_item + 1)
                          (Product.stock_quantity product) in
                  List.map (fun c =>
                    if CartItem.id c =? CartItem.id cart_item
                    then CartItem.set_quantity new_quantity c else c)
                    (cart_items db)
              | None =>
                  (cart_items db ++
                   [CartItem.mk (next_id (List.map CartItem.id (cart_items db)))
                      1 current_user
                      (WishlistItem.product_id wishlist_item)])%list
              end in
            let s' :=
              mkStore (set_cart_items (fun _ => cart') db)
                (List.filter (fun w =>
                   negb (WishlistItem.id w =? WishlistItem.id wishlist_item))
                   (wishlist_items s)) in
            (wishlist_answer wants_json current_user s' true
               (Product.name product ++ " moved to your cart.") "success"
               (Some "moved") (Some item_id)
               (back_or referrer "cart.view_cart"), s')
      end
  end.

(** A statement that leaves what the data store has committed as it
    is, whether it answers or raises: all it does stays in the open
    transaction. *)
Definition staged {A} (c : Tx A) : Prop :=
  forall s, committed (snd (c s)) = committed s.

(** The primary key of [orders] and the unique [order_number]. *)
Definition orders_constraints (db : Database) : Prop :=
  NoDup (omap Order.id (orders db))
  /\ NoDup (List.map Order.order_number (orders db)).

(* ===================================================================== *)
(** * Properties *)
(* ===================================================================== *)

(** ** The session: what is staged and what is committed *)

Lemma staged_ret {A} (a : A) : staged (tx_ret a).
Proof. intros s. reflexivity. Qed.

Lemma staged_raise {A} (e : exn) : staged (@tx_raise A e).
Proof. intros s. reflexivity. Qed.

Lemma staged_lift {A} (r : result A) : staged (tx_lift r).
Proof. intros s. reflexivity. Qed.

Lemma staged_get : staged tx_get.
Proof. intros s. reflexivity. Qed.

Lemma staged_modify f : staged (tx_modify f).
Proof. intros s. reflexivity. Qed.

Lemma staged_bind {A B} (c : Tx A) (k : A -> Tx B) :
  staged c -> (forall a, staged (k a)) -> staged (tx_bind c k).
Proof.
  intros Hc Hk s. unfold tx_bind. specialize (Hc s).
  destruct (c s) as [[a|e] s1]; simpl in Hc.
  - by rewrite Hk.
  - exact Hc.
Qed.

Lemma staged_for {A} (body : A -> Tx unit) (l : list A) :
  (forall x, staged (body x)) -> staged (tx_for l body).
Proof.
  intros Hbody. induction l as [|x l IH]; simpl.
  - apply staged_ret.
  - apply staged_bind; [apply Hbody|]. intros _. exact IH.
Qed.

(** [commit] is the statement that is not staged: unless the data store
    refuses, what was pending is what is committed afterwards. *)
Lemma commit_is_not_staged env :
  fails_at env AtCommit = false -> ~ staged (commit env).
Proof.
  intros Hf Hstaged.
  specialize (Hstaged (mkSession (mkDatabase ∅ [] [] [])
                         (mkDatabase ∅ [CartItem.mk 1 1 1 1] [] []))).
  unfold commit in Hstaged. rewrite Hf in Hstaged. discriminate.
Qed.

Section Session.

Variables (current_user : Z) (env : Env).

Lemma add_and_flush_staged o : staged (add_and_flush env o).
Proof.
  unfold add_and_flush. apply staged_bind; [apply staged_get|]. intros db.
  destruct (fails_at env AtFlush); [apply staged_raise|].
  destruct (existsb _ _); [apply staged_raise|].
  apply staged_bind; [apply staged_modify|]. intros _. apply staged_ret.
Qed.

Lemma order_line_staged order_id cart_item :
  staged (order_line order_id cart_item).
Proof.
  unfold order_line. apply staged_bind; [apply staged_get|]. intros db.
  destruct (products db !! CartItem.product_id cart_item) as [p|];
    [|apply staged_raise].
  apply staged_bind; [apply staged_lift|]. intros unit_price.
  apply staged_bind; [apply staged_lift|]. intros line.
  apply staged_bind; [apply staged_modify|]. intros _. apply staged_modify.
Qed.

Lemma clear_cart_of_staged : staged (clear_cart_of env current_user).
Proof.
  unfold clear_cart_of.
  destruct (fails_at env AtDelete); [apply staged_raise|apply staged_modify].
Qed.

(** The [try] block of [checkout] up to the commit: the INSERT of the
    order, the loop over the lines and the DELETE on the cart are all
    staged. *)
Lemma before_commit_staged f totals items :
  staged (let* order_id :=
            add_and_flush env (new_order current_user f env totals) in
          tx_for items (order_line order_id) ;;;
          clear_cart_of env current_user).
Proof.
  apply staged_bind; [apply add_and_flush_staged|]. intros order_id.
  apply staged_bind; [|intros _; apply clear_cart_of_staged].
  apply staged_for. intros c. apply order_line_staged.
Qed.

(** The commit is the last statement of the [try] block that touches
    the session. *)
Lemma place_order_steps f totals items s :
  place_order current_user f env totals items s
  = tx_bind
      (let* order_id :=
         add_and_flush env (new_order current_user f env totals) in
       tx_for items (order_line order_id) ;;;
       clear_cart_of env current_user)
      (fun _ => commit env ;;; tx_ret (new_order_number env)) s.
Proof.
  unfold place_order, tx_bind.
  destruct (add_and_flush env _ s) as [[order_id|e] s1]; [|done].
  destruct (tx_for items _ s1) as [[[]|e] s2]; [|done].
  by destruct (clear_cart_of env current_user s2) as [[[]|e] s3].
Qed.

(** A [try] block that raised, at whatever statement: the data store
    holds what it held. *)
Lemma place_order_raised f totals items s e s' :
  place_order current_user f env totals items s = (inr e, s') ->
  committed s' = committed s.
Proof.
  rewrite place_order_steps. unfold tx_bind at 1.
  pose proof (before_commit_staged f totals items s) as Hstaged.
  destruct (tx_bind (add_and_flush env _) _ s) as [[[]|e1] s1];
    simpl in Hstaged.
  - unfold tx_bind, commit.
    destruct (fails_at env AtCommit); [|discriminate].
    intros [= _ <-]. exact Hstaged.
  - intros [= _ <-]. exact Hstaged.
Qed.

Lemma order_line_keeps order_id cart_item s s' :
  order_line order_id cart_item s = (inl tt, s') ->
  orders (pending s') = orders (pending s)
  /\ cart_items (pending s') = cart_items (pending s).
Proof.
  unfold order_line, tx_bind, tx_get, tx_lift, tx_raise, tx_modify, ok.
  destruct (products (pending s) !! CartItem.product_id cart_item) as [p|];
    [|done].
  destruct (Product.get_discounted_price p); [|done].
  destruct (CartItemMethods.get_subtotal _ _); [|done].
  intros [= <-]. done.
Qed.

Lemma tx_for_order_line_keeps order_id items : forall s s',
  tx_for items (order_line order_id) s = (inl tt, s') ->
  orders (pending s') = orders (pending s)
  /\ cart_items (pending s') = cart_items (pending s).
Proof.
  induction items as [|item rest IH]; intros s s'; simpl.
  - unfold tx_ret, ok. intros [= <-]. done.
  - unfold tx_bind at 1.
    destruct (order_line order_id item s) as [[[]|e] s1] eqn:Hline; [|done].
    intros Hrest. apply IH in Hrest as [-> ->].
    by apply order_line_keeps in Hline.
Qed.

(** A [try] block that reached the end: the order number was free, the
    data store refused nothing, the loop ran over the lines on top of the
    inserted order, and what is committed is what the loop staged with
    the cart of the user deleted. *)
Lemma place_order_inv f totals items s n s' :
  place_order current_user f env totals items s = (inl n, s') ->
  n = new_order_number env
  /\ existsb (String.eqb n) (List.map Order.order_number (orders (pending s)))
     = false
  /\ store_fault env = None
  /\ exists s1,
       tx_for items
         (order_line (next_id (omap Order.id (orders (pending s)))))
         (mkSession (committed s)
            (set_orders (fun l =>
               (l ++ [Order.inserted
                        (next_id (omap Order.id (orders (pending s))))
                        (new_order current_user f env totals)])%list)
               (pending s)))
       = (inl tt, s1)
       /\ committed s' =
            set_cart_items
              (List.filter
                 (fun c => negb (CartItem.user_id c =? current_user)))
              (pending s1).
Proof.
  unfold place_order, tx_bind at 1, add_and_flush.
  unfold tx_bind at 1, tx_get, ok. cbv beta iota.
  destruct (fails_at env AtFlush) eqn:Hf1; [done|].
  destruct (existsb _ _) eqn:Hfree; [done|].
  unfold tx_bind at 1, tx_modify at 1, tx_ret at 1, ok. cbv beta iota.
  unfold tx_bind at 1.
  destruct (tx_for items _ _) as [[[]|e2] s1] eqn:Hloop; [|done].
  unfold tx_bind at 1, clear_cart_of.
  destruct (fails_at env AtDelete) eqn:Hf2; [done|].
  unfold tx_modify at 1, ok, tx_bind, commit. cbv beta iota.
  destruct (fails_at env AtCommit) eqn:Hf3; [done|].
  unfold tx_ret, ok. intros [= <- <-]. simpl.
  split; [done|]. split; [exact Hfree|]. split.
  - unfold fails_at in *. destruct (store_fault env) as [[]|]; done.
  - by exists s1.
Qed.

End Session.

(** ** The view: its outcomes *)

Lemma insert_by_not_nil rank c l : insert_by rank c l <> [].
Proof. destruct l as [|x l]; simpl; [done|]. by destruct (_ <=? _). Qed.

Lemma query_all_nil env rows : query_all env rows = [] <-> rows = [].
Proof.
  split; [|by intros ->].
  destruct rows as [|c rows]; [done|]. unfold query_all, sort_by. simpl.
  intros H. by apply insert_by_not_nil in H.
Qed.

Lemma checkout_failed_unchanged current_user req env db :
  succeeded (fst (checkout current_user req env db)) = false ->
  snd (checkout current_user req env db) = db.
Proof.
  unfold checkout.
  destruct (query_all env (cart_of current_user db)); [done|].
  destruct (checkout_totals env db _); [|done].
  destruct (validate_on_submit req); [|done].
  destruct (place_order _ _ _ _ _ _) as [[n|e] s'] eqn:Hplace; [done|].
  intros _. apply place_order_raised in Hplace. done.
Qed.

Lemma checkout_succeeded_inv current_user req env db :
  succeeded (fst (checkout current_user req env db)) = true ->
  exists totals s1,
    cart_of current_user db <> []
    /\ checkout_totals env db (query_all env (cart_of current_user db))
       = inl totals
    /\ validate_on_submit req = true
    /\ fst (checkout current_user req env db)
       = order_placed (new_order_number env)
    /\ existsb (String.eqb (new_order_number env))
               (List.map Order.order_number (orders db)) = false
    /\ store_fault env = None
    /\ tx_for (query_all env (cart_of current_user db))
         (order_line (next_id (omap Order.id (orders db))))
         (mkSession db
            (set_orders (fun l =>
               (l ++ [Order.inserted (next_id (omap Order.id (orders db)))
                        (new_order current_user (form req) env totals)])%list)
               db))
       = (inl tt, s1)
    /\ snd (checkout current_user req env db) =
         set_cart_items
           (List.filter (fun c => negb (CartItem.user_id c =? current_user)))
           (pending s1).
Proof.
  unfold checkout.
  destruct (query_all env (cart_of current_user db)) as [|c l] eqn:Hcart;
    [done|].
  destruct (checkout_totals env db _) as [totals|]; [|done].
  destruct (validate_on_submit req); [|done].
  destruct (place_order _ _ _ _ _ _) as [[n|e] s'] eqn:Hplace; [|done].
  intros _.
  apply place_order_inv in Hplace as (-> & Hfree & Hfault & s1 & Hloop & Hc).
  exists totals, s1. simpl in *. repeat split; try done.
  intros Hnil. apply (query_all_nil env) in Hnil. by rewrite Hnil in Hcart.
Qed.

Lemma checkout_totals_inv env db items t :
  checkout_totals env db items = inl t ->
  sum_subtotals env db items = inl (Totals.subtotal t)
  /\ Totals.tax_amount t = round2 (fmul (Totals.subtotal t) tax_rate)
  /\ Totals.shipping_cost t =
       (if flt (float_of_Z 500) (Totals.subtotal t)
        then float_of_Z 0 else float_of_Z 50)
  /\ Totals.total_amount t =
       fadd (fadd (Totals.subtotal t) (Totals.tax_amount t))
            (Totals.shipping_cost t).
Proof.
  unfold checkout_totals, rbind, ok.
  destruct (sum_subtotals env db items) as [s|]; [|done].
  intros [= <-]. done.
Qed.

Lemma filter_own_after_clear (u : Z) (l : list CartItem.t) :
  List.filter (fun c => CartItem.user_id c =? u)
    (List.filter (fun c => negb (CartItem.user_id c =? u)) l) = [].
Proof.
  induction l as [|c l IH]; [done|]. simpl.
  destruct (CartItem.user_id c =? u) eqn:E; simpl; [done|]. by rewrite E.
Qed.

(** The order a successful checkout leaves behind. *)
Lemma checkout_succeeded_order current_user req env db :
  succeeded (fst (checkout current_user req env db)) = true ->
  exists totals,
    checkout_totals env db (query_all env (cart_of current_user db))
    = inl totals
    /\ fst (checkout current_user req env db)
       = order_placed (new_order_number env)
    /\ existsb (String.eqb (new_order_number env))
               (List.map Order.order_number (orders db)) = false
    /\ orders (snd (checkout current_user req env db)) =
         (orders db ++
            [Order.inserted (next_id (omap Order.id (orders db)))
               (new_order current_user (form req) env totals)])%list
    /\ cart_of current_user (snd (checkout current_user req env db)) = [].
Proof.
  intros Hs.
  destruct (checkout_succeeded_inv _ _ _ _ Hs)
    as (totals & s1 & _ & Ht & _ & Hfst & Hfree & _ & Hloop & Hsnd).
  apply tx_for_order_line_keeps in Hloop as [Ho Hc]. simpl in Ho, Hc.
  exists totals. rewrite Hsnd. unfold cart_of. simpl. rewrite Ho, Hc.
  repeat split; try done. apply filter_own_after_clear.
Qed.

(** The cart table a successful checkout leaves behind. *)
Lemma checkout_succeeded_cart current_user req env db :
  succeeded (fst (checkout current_user req env db)) = true ->
  cart_items (snd (checkout current_user req env db)) =
    List.filter (fun c => negb (CartItem.user_id c =? current_user))
                (cart_items db).
Proof.
  intros Hs.
  destruct (checkout_succeeded_inv _ _ _ _ Hs)
    as (totals & s1 & _ & _ & _ & _ & _ & _ & Hloop & Hsnd).
  apply tx_for_order_line_keeps in Hloop as [_ Hc]. simpl in Hc.
  rewrite Hsnd. simpl. by rewrite Hc.
Qed.

(** C2. Atomicity: when checkout does not end on the confirmation page,
    whatever the step that failed (empty cart, an exception while the
    totals are computed, a rejected form, a taken order number, a line
    that cannot be priced, the data store refusing the flush, the delete
    or the commit), the data store holds after the request what it held
    before: no order row, no order item row, every stock quantity and the
    cart lines of the user as they were.  What the [try] block had staged
    when it raised is dropped by the rollback, and nothing was published
    before, because the commit is the last statement of the block. *)
Theorem checkout_all_or_nothing current_user req env db :
  succeeded (fst (checkout current_user req env db)) = false ->
  orders (snd (checkout current_user req env db)) = orders db
  /\ order_items (snd (checkout current_user req env db)) = order_items db
  /\ (forall pid,
        Product.stock_quantity
          <$> products (snd (checkout current_user req env db)) !! pid
        = Product.stock_quantity <$> products db !! pid)
  /\ cart_of current_user (snd (checkout current_user req env db))
     = cart_of current_user db
  /\ snd (checkout current_user req env db) = db.
Proof.
  unfold checkout.
  destruct (query_all env (cart_of current_user db)) as [|c l]; [done|].
  destruct (checkout_totals env db _) as [totals|]; [|done].
  destruct (validate_on_submit req); [|done].
  destruct (place_order _ _ _ _ _ _) as [[n|e] s'] eqn:Hplace; [done|].
  intros _. apply place_order_raised in Hplace.
  unfold rollback. simpl in *. rewrite Hplace. done.
Qed.

(** The DELETE on the cart is refused after the order, its item and the
    stock decrement were staged: the session holds them when the [try]
    block raises, and nothing of it is left after the rollback. *)
Lemma checkout_all_or_nothing_witness :
  (let '(outcome, s) :=
     place_order 7 (form Sample.submit) Sample.env_delete_refused
       (Totals.mk (float_of_Z 180) (float_of_Z 9) (float_of_Z 50)
                  (float_of_Z 239))
       (cart_of 7 Sample.discounted_cart) (begin Sample.discounted_cart) in
   outcome = inr OperationalError
   /\ List.map Order.order_number (orders (pending s))
      = ["ORD-20240309-DEADBEEF"]
   /\ List.map OrderItem.quantity (order_items (pending s)) = [2]
   /\ stock_of (pending s) 1 = Some 48
   /\ committed s = Sample.discounted_cart)
  /\ succeeded
       (fst (checkout 7 Sample.submit Sample.env_delete_refused
               Sample.discounted_cart)) = false
  /\ snd (checkout 7 Sample.submit Sample.env_delete_refused
            Sample.discounted_cart) = Sample.discounted_cart.
Proof.
  split; [vm_compute; done|].
  split; [vm_compute; reflexivity|].
  apply (checkout_all_or_nothing 7 Sample.submit Sample.env_delete_refused
           Sample.discounted_cart).
  vm_compute; reflexivity.
Defined.

(** C6. A user without cart lines is sent back with "Your cart is
    empty." and the database, hence the order table, is untouched; the
    view gives that answer exactly when the cart has no line. *)
Theorem empty_cart_is_refused current_user req env db :
  (cart_of current_user db = [] ->
     fst (checkout current_user req env db) = cart_is_empty
     /\ orders (snd (checkout current_user req env db)) = orders db
     /\ snd (checkout current_user req env db) = db)
  /\ (fst (checkout current_user req env db) = cart_is_empty
      <-> cart_of current_user db = []).
Proof.
  unfold checkout.
  destruct (query_all env (cart_of current_user db)) as [|c l] eqn:Hq.
  - apply query_all_nil in Hq. by rewrite Hq.
  - assert (cart_of current_user db <> []) as Hne.
    { intros H. by rewrite H in Hq. }
    split; [done|]. split; [|done].
    destruct (checkout_totals env db _); [|done].
    destruct (validate_on_submit req); [|done].
    destruct (place_order _ _ _ _ _ _) as [[n|e] s']; simpl; discriminate.
Qed.

(** C8, as stated, fails: the candidate order number of the request is
    already taken, the view answers at once with the generic error and
    draws no second candidate, although the next candidate would have
    been free. *)
Lemma no_retry_on_collision :
  existsb (String.eqb (new_order_number Sample.env_a))
          (List.map Order.order_number (orders Sample.taken)) = true
  /\ checkout 8 Sample.submit Sample.env_a Sample.taken
     = (order_error, Sample.taken)
  /\ succeeded (fst (checkout 8 Sample.submit Sample.env_b Sample.taken))
     = true.
Proof. vm_compute. done. Qed.

(** C8, amended. The view makes one attempt: when the candidate order
    number collides with a stored one, the INSERT is refused, the session
    is rolled back, and the answer is the generic error message with the
    database unchanged.  There is no loop in the view. *)
Theorem collision_aborts_at_once current_user req env db totals :
  cart_of current_user db <> [] ->
  checkout_totals env db (query_all env (cart_of current_user db))
  = inl totals ->
  validate_on_submit req = true ->
  existsb (String.eqb (new_order_number env))
          (List.map Order.order_number (orders db)) = true ->
  checkout current_user req env db = (order_error, db).
Proof.
  intros Hcart Ht Hv Hdup. unfold checkout.
  destruct (query_all env (cart_of current_user db)) as [|c l] eqn:Hq.
  { by apply query_all_nil in Hq. }
  rewrite Ht, Hv.
  unfold place_order, tx_bind at 1, add_and_flush.
  unfold tx_bind at 1, tx_get, ok. cbv beta iota.
  destruct (fails_at env AtFlush); [done|].
  change (pending (begin db)) with db.
  change (Order.order_number (new_order current_user (form req) env totals))
    with (new_order_number env).
  by rewrite Hdup.
Qed.

Lemma collision_aborts_at_once_witness :
  checkout 8 Sample.submit Sample.env_a Sample.taken
  = (order_error, Sample.taken).
Proof.
  apply (collision_aborts_at_once 8 Sample.submit Sample.env_a Sample.taken
           (Totals.mk (float_of_Z 90) (Sample.dec 45 10) (float_of_Z 50)
                      (Sample.dec 1445 10))).
  - vm_compute. discriminate.
  - vm_compute. reflexivity.
  - vm_compute. reflexivity.
  - vm_compute. reflexivity.
Defined.

(** C5, as stated, fails: price 4.50, no discount, quantity 1.  The
    stored total is the float [4.5 + 0.23 + 50 = 54.730000000000004],
    and rounding the same sum to two decimals gives [54.73]. *)
Lemma total_is_not_rounded :
  succeeded (fst (checkout 7 Sample.submit Sample.env_a Sample.small_cart))
  = true
  /\ List.map
       (fun o => (Order.subtotal o, Order.tax_amount o,
                  Order.shipping_cost o, Order.discount_amount o,
                  Order.total_amount o))
       (orders (snd (checkout 7 Sample.submit Sample.env_a
                       Sample.small_cart)))
     = [(Sample.dec 45 10, Some (Sample.dec 23 100), Some (float_of_Z 50),
         Some zero, Sample.dec 54730000000000004 1000000000000000)]
  /\ round2 (fsub (fadd (fadd (Sample.dec 45 10) (Sample.dec 23 100))
                        (float_of_Z 50)) zero)
     = Sample.dec 5473 100
  /\ feq (Sample.dec 54730000000000004 1000000000000000)
         (Sample.dec 5473 100) = false.
Proof. vm_compute. done. Qed.

(** C5, amended. The order of a successful checkout stores
    [discount_amount = 0] and
    [total_amount = (subtotal + tax_amount) + shipping_cost], the float
    additions of the view taken as they are: the total is not rounded. *)
Theorem order_total_is_the_plain_sum current_user req env db :
  succeeded (fst (checkout current_user req env db)) = true ->
  exists o tax shipping,
    orders (snd (checkout current_user req env db)) = (orders db ++ [o])%list
    /\ Order.tax_amount o = Some tax
    /\ Order.shipping_cost o = Some shipping
    /\ Order.discount_amount o = Some zero
    /\ Order.total_amount o = fadd (fadd (Order.subtotal o) tax) shipping.
Proof.
  intros Hs.
  destruct (checkout_succeeded_order _ _ _ _ Hs)
    as (t & Ht & _ & _ & Ho & _).
  apply checkout_totals_inv in Ht as (_ & _ & _ & Htotal).
  eexists _, (Totals.tax_amount t), (Totals.shipping_cost t).
  split; [exact Ho|]. simpl. done.
Qed.

Lemma order_total_is_the_plain_sum_witness :
  succeeded (fst (checkout 7 Sample.submit Sample.env_a
                    Sample.discounted_cart)) = true
  /\ exists o tax shipping,
       orders (snd (checkout 7 Sample.submit Sample.env_a
                      Sample.discounted_cart)) = ([] ++ [o])%list
       /\ Order.tax_amount o = Some tax
       /\ Order.shipping_cost o = Some shipping
       /\ Order.discount_amount o = Some zero
       /\ Order.total_amount o = fadd (fadd (Order.subtotal o) tax) shipping.
Proof.
  split; [vm_compute; reflexivity|].
  apply (order_total_is_the_plain_sum 7 Sample.submit Sample.env_a
           Sample.discounted_cart).
  vm_compute; reflexivity.
Defined.

(** ** Order numbers *)

Lemma digit_is_digit d : 0 <= d < 10 -> is_digit (digit d) = true.
Proof.
  intros H. destruct d as [|p|p]; [reflexivity| |lia].
  do 4 (try destruct p as [p|p|]); try reflexivity; lia.
Qed.

Lemma hexdigit_is_lower_hex n :
  0 <= n < 16 -> is_lower_hex (hexdigit n) = true.
Proof.
  intros H. destruct n as [|p|p]; [reflexivity| |lia].
  do 4 (try destruct p as [p|p|]); try reflexivity; lia.
Qed.

Lemma upper_char_hex c :
  is_lower_hex c = true -> is_upper_hex (upper_char c) = true.
Proof.
  destruct c as [[] [] [] [] [] [] [] []]; vm_compute; done.
Qed.

Lemma hex_digits_length k u : String.length (hex_digits k u) = k.
Proof. induction k as [|k IH]; simpl; [done|]. by rewrite IH. Qed.

Lemma hex_digits_lower k u :
  string_forall is_lower_hex (hex_digits k u) = true.
Proof.
  induction k as [|k IH]; [done|].
  cbn [hex_digits string_forall]. rewrite IH, andb_true_r.
  apply hexdigit_is_lower_hex, Z.mod_pos_bound. lia.
Qed.

Lemma substring_forall p : forall s n m,
  string_forall p s = true -> string_forall p (substring n m s) = true.
Proof.
  induction s as [|c s IH]; intros n m H.
  - by destruct n, m.
  - simpl in H. apply andb_true_iff in H as [Hc Hs].
    destruct n as [|n]; simpl.
    + destruct m as [|m]; [done|]. simpl. rewrite Hc. by apply IH.
    + by apply IH.
Qed.

Lemma substring_prefix_length : forall s m,
  (m <= String.length s)%nat -> String.length (substring 0 m s) = m.
Proof.
  induction s as [|c s IH]; intros m H; simpl in H.
  - by destruct m; [|lia].
  - destruct m as [|m]; [done|]. simpl. rewrite IH; [done|lia].
Qed.

Lemma upper_length s : String.length (upper s) = String.length s.
Proof. induction s as [|c s IH]; simpl; [done|]. by rewrite IH. Qed.

Lemma upper_hex s :
  string_forall is_lower_hex s = true ->
  string_forall is_upper_hex (upper s) = true.
Proof.
  induction s as [|c s IH]; simpl; [done|].
  intros H. apply andb_true_iff in H as [Hc Hs].
  by rewrite (upper_char_hex _ Hc), IH.
Qed.

Lemma decimal_four_digits y :
  1000 <= y <= 9999 ->
  decimal y =
    String (digit (y / 10 / 10 / 10 mod 10))
      (String (digit (y / 10 / 10 mod 10))
         (String (digit (y / 10 mod 10))
            (String (digit (y mod 10)) ""))).
Proof.
  intros H. unfold decimal.
  destruct (Z.to_nat y) as [|[|[|[|k]]]] eqn:E; try lia.
  cbn [decimal_digits].
  assert ((y <? 10) = false) as -> by lia.
  assert ((y / 10 <? 10) = false) as ->.
  { apply Z.ltb_ge. apply Z.div_le_lower_bound; lia. }
  assert ((y / 10 / 10 <? 10) = false) as ->.
  { apply Z.ltb_ge. rewrite Z.div_div by lia.
    apply Z.div_le_lower_bound; lia. }
  assert ((y / 10 / 10 / 10 <? 10) = true) as ->.
  { apply Z.ltb_lt. rewrite !Z.div_div by lia.
    apply Z.div_lt_upper_bound; lia. }
  destruct k; reflexivity.
Qed.

Lemma two_digits_shape n :
  0 <= n < 100 ->
  String.length (two_digits n) = 2%nat
  /\ string_forall is_digit (two_digits n) = true.
Proof.
  intros H. split; [done|]. unfold two_digits. cbn [string_forall].
  rewrite !digit_is_digit; [done| |].
  - apply Z.mod_pos_bound. lia.
  - split; [apply Z.div_pos; lia | apply Z.div_lt_upper_bound; lia].
Qed.

Lemma string_forall_app p s t :
  string_forall p (s ++ t) = string_forall p s && string_forall p t.
Proof.
  induction s as [|c s IH]; simpl; [done|]. by rewrite IH, andb_assoc.
Qed.

Lemma strftime_shape d :
  four_digit_date d ->
  String.length (strftime_Ymd d) = 8%nat
  /\ string_forall is_digit (strftime_Ymd d) = true.
Proof.
  intros (Hy & Hm & Hd). unfold strftime_Ymd.
  rewrite (decimal_four_digits _ Hy).
  destruct (two_digits_shape (month d)) as [_ Hm2]; [lia|].
  destruct (two_digits_shape (day d)) as [_ Hd2]; [lia|].
  split; [done|].
  rewrite !string_forall_app, Hm2, Hd2. cbn [string_forall].
  rewrite !digit_is_digit; [done| | | |]; apply Z.mod_pos_bound; lia.
Qed.

Lemma order_suffix_shape u :
  String.length (upper (substring 0 8 (uuid_hex u))) = 8%nat
  /\ string_forall is_upper_hex (upper (substring 0 8 (uuid_hex u))) = true.
Proof.
  unfold uuid_hex. split.
  - rewrite upper_length, substring_prefix_length; [done|].
    rewrite hex_digits_length. lia.
  - apply upper_hex, substring_forall, hex_digits_lower.
Qed.

(** C10. The order of a successful checkout is inserted with status
    'confirmed' (so never 'pending'), payment status 'paid', the column
    default 0 as discount amount, and the number shown to the shopper,
    which is 'ORD-', eight decimal digits, '-', eight characters of
    [0-9A-F]. *)
Theorem placed_order_shape current_user req env db :
  four_digit_date (now env) ->
  succeeded (fst (checkout current_user req env db)) = true ->
  exists o stamp suffix,
    orders (snd (checkout current_user req env db)) = (orders db ++ [o])%list
    /\ fst (checkout current_user req env db)
       = order_placed (Order.order_number o)
    /\ Order.status o = Some "confirmed"
    /\ Order.status o <> Some "pending"
    /\ Order.payment_status o = Some "paid"
    /\ Order.discount_amount o = Some zero
    /\ Order.order_number o = "ORD-" ++ stamp ++ "-" ++ suffix
    /\ String.length stamp = 8%nat
    /\ string_forall is_digit stamp = true
    /\ String.length suffix = 8%nat
    /\ string_forall is_upper_hex suffix = true.
Proof.
  intros Hdate Hs.
  destruct (checkout_succeeded_order _ _ _ _ Hs)
    as (t & _ & Hfst & _ & Ho & _).
  destruct (strftime_shape _ Hdate) as [Hlen Hdig].
  destruct (order_suffix_shape (uuid_first env)) as [Hlen' Hhex].
  eexists _, (strftime_Ymd (now env)),
    (upper (substring 0 8 (uuid_hex (uuid_first env)))).
  split; [exact Ho|]. simpl. done.
Qed.

Lemma placed_order_shape_witness :
  four_digit_date (now Sample.env_a)
  /\ succeeded (fst (checkout 7 Sample.submit Sample.env_a
                       Sample.discounted_cart)) = true
  /\ exists o stamp suffix,
       orders (snd (checkout 7 Sample.submit Sample.env_a
                      Sample.discounted_cart)) = ([] ++ [o])%list
       /\ fst (checkout 7 Sample.submit Sample.env_a Sample.discounted_cart)
          = order_placed (Order.order_number o)
       /\ Order.status o = Some "confirmed"
       /\ Order.status o <> Some "pending"
       /\ Order.payment_status o = Some "paid"
       /\ Order.discount_amount o = Some zero
       /\ Order.order_number o = "ORD-" ++ stamp ++ "-" ++ suffix
       /\ String.length stamp = 8%nat
       /\ string_forall is_digit stamp = true
       /\ String.length suffix = 8%nat
       /\ string_forall is_upper_hex suffix = true.
Proof.
  assert (four_digit_date (now Sample.env_a)) as Hdate.
  { unfold four_digit_date. simpl. lia. }
  split; [exact Hdate|]. split; [vm_compute; reflexivity|].
  apply (placed_order_shape 7 Sample.submit Sample.env_a
           Sample.discounted_cart Hdate).
  vm_compute; reflexivity.
Defined.

(** ** Pricing *)

Lemma subtotals_priced db items lines :
  priced db items lines ->
  subtotals db items = inl (List.map line_amount lines).
Proof.
  induction 1 as [|item line items lines (p & Hp & Hprice & Hq) _ IH];
    [done|].
  cbn [subtotals List.map].
  rewrite Hp. unfold CartItemMethods.get_subtotal, rbind, ok.
  rewrite Hprice, Hq. unfold rbind, ok in IH. by rewrite IH.
Qed.

Lemma sum_subtotals_priced env db items lines :
  priced db items lines ->
  sum_subtotals env db items
  = inl (py_sum (python env) (List.map line_amount lines)).
Proof.
  intros Hpriced. unfold sum_subtotals.
  by rewrite (subtotals_priced _ _ _ Hpriced).
Qed.

(** C3. For the (discounted unit price, quantity) pairs of a cart that is
    not empty, the view computes
    - subtotal: the [sum] of the amounts [round(price * quantity, 2)] of
      the lines,
    - tax_amount: [round(subtotal * 0.05, 2)],
    - shipping_cost: 0 if [subtotal > 500] and 50 otherwise,
    - total_amount: [subtotal + tax_amount + shipping_cost];
    and one line of price 100, discount 10 %, quantity 2 gives 180.00,
    9.00, 50 and 239.00. *)
Theorem pricing_contract :
  (forall env db items lines,
     items <> [] ->
     priced db items lines ->
     exists t,
       checkout_totals env db items = inl t
       /\ Totals.subtotal t
          = py_sum (python env) (List.map line_amount lines)
       /\ Totals.tax_amount t
          = round2 (fmul (Totals.subtotal t) (Sample.dec 5 100))
       /\ Totals.shipping_cost t
          = (if flt (float_of_Z 500) (Totals.subtotal t)
             then float_of_Z 0 else float_of_Z 50)
       /\ Totals.total_amount t
          = fadd (fadd (Totals.subtotal t) (Totals.tax_amount t))
                 (Totals.shipping_cost t))
  /\ priced Sample.discounted_cart (cart_of 7 Sample.discounted_cart)
            [(float_of_Z 90, 2)]
  /\ (forall py,
        checkout_totals (Sample.env_index py) Sample.discounted_cart
          (cart_of 7 Sample.discounted_cart)
        = inl (Totals.mk (float_of_Z 180) (float_of_Z 9) (float_of_Z 50)
                         (float_of_Z 239))).
Proof.
  split; [|split].
  - intros env db items lines _ Hpriced.
    unfold checkout_totals.
    rewrite (sum_subtotals_priced _ _ _ _ Hpriced). simpl.
    eexists. split; [reflexivity|]. done.
  - repeat constructor. eexists. split; [by vm_compute|].
    split; by vm_compute.
  - intros []; by vm_compute.
Qed.

Lemma pricing_contract_witness :
  exists t,
    checkout_totals Sample.env_a Sample.discounted_cart
      (cart_of 7 Sample.discounted_cart)
    = inl t
    /\ Totals.subtotal t
       = py_sum CPython_3_11 (List.map line_amount [(float_of_Z 90, 2)])
    /\ Totals.tax_amount t
       = round2 (fmul (Totals.subtotal t) (Sample.dec 5 100))
    /\ Totals.shipping_cost t
       = (if flt (float_of_Z 500) (Totals.subtotal t)
          then float_of_Z 0 else float_of_Z 50)
    /\ Totals.total_amount t
       = fadd (fadd (Totals.subtotal t) (Totals.tax_amount t))
              (Totals.shipping_cost t).
Proof.
  apply (proj1 pricing_contract Sample.env_a Sample.discounted_cart
           (cart_of 7 Sample.discounted_cart) [(float_of_Z 90, 2)]).
  - vm_compute. discriminate.
  - exact (proj1 (proj2 pricing_contract)).
Defined.

(** ** Stock and availability at checkout *)

(** C1: the code at the failing input.  User 7 holds a cart line of
    quantity 2, accepted by [add_to_cart] when 2 were in stock; user 8
    has bought one since.  The checkout of user 7 meets quantity 2 and
    stock 1, goes through, and leaves the stock at -1. *)
Theorem checkout_sells_more_than_stock :
  List.map fst [Sample.outsold_1; Sample.outsold_2; Sample.outsold_3]
  = [redirect (url_for "cart.view_cart")
       (Some ("Added Rice Bran Oil to cart.", "success"));
     redirect (url_for "cart.view_cart")
       (Some ("Added Rice Bran Oil to cart.", "success"));
     order_placed "ORD-20240309-DEADBEEF"]
  /\ List.map CartItem.quantity (cart_of 7 (snd Sample.outsold_3)) = [2]
  /\ stock_of (snd Sample.outsold_3) 1 = Some 1
  /\ fst Sample.outsold_4 = order_placed "ORD-20240309-00C0FFEE"
  /\ List.map OrderItem.quantity (order_items (snd Sample.outsold_4)) = [1; 2]
  /\ stock_of (snd Sample.outsold_4) 1 = Some (-1).
Proof. vm_compute. done. Qed.

(** C4: the code on the two requests for the last unit, served one after
    the other.  Both carts were filled while one unit was in stock; both
    checkouts are confirmed, two units are sold out of one, and the stock
    ends at -1. *)
Theorem last_unit_is_sold_twice :
  stock_of Sample.last_unit_0 1 = Some 1
  /\ List.map CartItem.quantity (cart_items (snd Sample.last_unit_2)) = [1; 1]
  /\ fst Sample.last_unit_3 = order_placed "ORD-20240309-DEADBEEF"
  /\ stock_of (snd Sample.last_unit_3) 1 = Some 0
  /\ fst Sample.last_unit_4 = order_placed "ORD-20240309-00C0FFEE"
  /\ List.map OrderItem.quantity (order_items (snd Sample.last_unit_4))
     = [1; 1]
  /\ stock_of (snd Sample.last_unit_4) 1 = Some (-1).
Proof. vm_compute. done. Qed.

(** C7: the code at the failing input.  The product of the cart line was
    withdrawn from sale after it was put in the cart; checkout is
    confirmed, an order and its item are stored and the stock is
    decremented.  (A cart line without product row makes the view raise
    before anything is written.) *)
Theorem withdrawn_product_is_sold :
  Product.is_active <$> products Sample.withdrawn !! 1 = Some false
  /\ List.map CartItem.quantity (cart_of 7 Sample.withdrawn) = [2]
  /\ fst (checkout 7 Sample.submit Sample.env_a Sample.withdrawn)
     = order_placed "ORD-20240309-DEADBEEF"
  /\ List.map Order.order_number
       (orders (snd (checkout 7 Sample.submit Sample.env_a Sample.withdrawn)))
     = ["ORD-20240309-DEADBEEF"]
  /\ List.map OrderItem.quantity
       (order_items
          (snd (checkout 7 Sample.submit Sample.env_a Sample.withdrawn)))
     = [2]
  /\ stock_of Sample.withdrawn 1 = Some 50
  /\ stock_of (snd (checkout 7 Sample.submit Sample.env_a Sample.withdrawn)) 1
     = Some 48
  /\ checkout 7 Sample.submit Sample.env_a Sample.orphan_cart
     = (server_error AttributeError, Sample.orphan_cart).
Proof. vm_compute. done. Qed.

(** ** What a successful checkout writes *)

Lemma same_but_stock_price p q :
  same_but_stock p q ->
  Product.get_discounted_price p = Product.get_discounted_price q
  /\ Product.name p = Product.name q
  /\ Product.size p = Product.size q
  /\ Product.sku p = Product.sku q
  /\ Product.is_active p = Product.is_active q.
Proof.
  unfold same_but_stock, Product.set_stock_quantity,
    Product.get_discounted_price.
  intros [= Hn Hs Hk Hp Hd Ha]. rewrite Hp, Hd. done.
Qed.

Lemma order_line_inv order_id c s s' :
  order_line order_id c s = (inl tt, s') ->
  exists p unit_price,
    products (pending s) !! CartItem.product_id c = Some p
    /\ Product.get_discounted_price p = inl unit_price
    /\ s' = mkSession (committed s)
              (mkDatabase
                 (<[CartItem.product_id c :=
                      Product.set_stock_quantity
                        (Product.stock_quantity p - CartItem.quantity c) p]>
                    (products (pending s)))
                 (cart_items (pending s)) (orders (pending s))
                 (order_items (pending s)
                    ++ [snapshot order_id c p unit_price])%list).
Proof.
  unfold order_line, tx_bind, tx_get, tx_lift, tx_raise, tx_modify, ok.
  destruct (products (pending s) !! CartItem.product_id c) as [p|] eqn:Hp;
    [|done].
  unfold CartItemMethods.get_subtotal, rbind, ok.
  destruct (Product.get_discounted_price p) as [u|] eqn:Hu; [|done].
  intros [= <-]. exists p, u. done.
Qed.

(** The rows of the products after the loop: only the stock moved, by
    the units of the lines. *)
Lemma tx_for_order_line_products order_id items : forall s s',
  tx_for items (order_line order_id) s = (inl tt, s') ->
  forall pid,
    match products (pending s) !! pid, products (pending s') !! pid with
    | Some p, Some p' =>
        same_but_stock p p'
        /\ Product.stock_quantity p'
           = Product.stock_quantity p - units_of pid items
    | None, None => True
    | _, _ => False
    end.
Proof.
  induction items as [|c rest IH]; intros s s'; simpl.
  - unfold tx_ret, ok. intros [= <-] pid.
    destruct (products (pending s) !! pid); [|done]. split; [done|].
    unfold units_of. simpl. lia.
  - unfold tx_bind at 1.
    destruct (order_line order_id c s) as [[[]|e] s1] eqn:Hline; [|done].
    intros Hrest pid. specialize (IH _ _ Hrest pid).
    apply order_line_inv in Hline as (p & u & Hp & _ & ->).
    simpl in IH. unfold units_of. simpl.
    destruct (decide (CartItem.product_id c = pid)) as [<-|Hne].
    + rewrite lookup_insert_eq in IH. rewrite Hp, Z.eqb_refl. simpl.
      destruct (products (pending s') !! CartItem.product_id c) as [p'|];
        [|done].
      destruct IH as [Hsame Hstock]. split.
      * unfold same_but_stock in *. rewrite <- Hsame. by destruct p.
      * rewrite Hstock. unfold units_of. simpl. lia.
    + rewrite lookup_insert_ne in IH by done.
      assert ((CartItem.product_id c =? pid) = false) as -> by lia.
      exact IH.
Qed.

(** The order items after the loop: one per line, in the order of the
    lines, read from the rows as they were before the loop. *)
Lemma tx_for_order_line_items order_id items : forall s s',
  tx_for items (order_line order_id) s = (inl tt, s') ->
  exists new_items,
    order_items (pending s') = (order_items (pending s) ++ new_items)%list
    /\ Forall2 (fun c oi =>
         exists p unit_price,
           products (pending s) !! CartItem.product_id c = Some p
           /\ Product.get_discounted_price p = inl unit_price
           /\ oi = snapshot order_id c p unit_price) items new_items.
Proof.
  induction items as [|c rest IH]; intros s s'; simpl.
  - unfold tx_ret, ok. intros [= <-]. exists []. by rewrite app_nil_r.
  - unfold tx_bind at 1.
    destruct (order_line order_id c s) as [[[]|e] s1] eqn:Hline; [|done].
    intros Hrest. destruct (IH _ _ Hrest) as (new_items & Hnew & Hall).
    pose proof (tx_for_order_line_products order_id [c] s s1) as Hone.
    simpl in Hone. unfold tx_bind in Hone. rewrite Hline in Hone.
    specialize (Hone eq_refl).
    apply order_line_inv in Hline as (p & u & Hp & Hu & ->).
    exists (snapshot order_id c p u :: new_items). split.
    + rewrite Hnew. simpl. by rewrite <- app_assoc.
    + constructor; [by exists p, u|].
      eapply Forall2_impl; [exact Hall|].
      intros c' oi (p1 & u1 & Hp1 & Hu1 & ->).
      specialize (Hone (CartItem.product_id c')). simpl in Hone, Hp1.
      rewrite Hp1 in Hone.
      destruct (products (pending s) !! CartItem.product_id c') as [p0|];
        [|done].
      destruct Hone as [Hsame _].
      apply same_but_stock_price in Hsame as (Hprice & Hn & Hs & Hk & _).
      exists p0, u1. split; [done|]. split; [by rewrite Hprice|].
      unfold snapshot. by rewrite Hn, Hs, Hk.
Qed.

(** The rows a query returns are the rows it selects, in some order. *)
Lemma insert_by_perm rank c l : Permutation (insert_by rank c l) (c :: l).
Proof.
  induction l as [|x l IH]; simpl; [done|].
  destruct (rank c <=? rank x); [done|].
  rewrite IH. apply perm_swap.
Qed.

Lemma query_all_perm env rows : Permutation (query_all env rows) rows.
Proof.
  unfold query_all, sort_by. induction rows as [|c rows IH]; simpl; [done|].
  rewrite insert_by_perm. by constructor.
Qed.

Lemma units_of_perm pid l l' :
  Permutation l l' -> units_of pid l = units_of pid l'.
Proof.
  unfold units_of. induction 1 as [|x l l' _ IH|x y l|l l' l'' _ IH1 _ IH2];
    simpl.
  - done.
  - destruct (CartItem.product_id x =? pid); simpl; lia.
  - destruct (CartItem.product_id x =? pid), (CartItem.product_id y =? pid);
      simpl; lia.
  - lia.
Qed.

(** X1. A successful checkout stores one order item per cart line of the
    user, in the order in which the query of the view returned the
    lines: the quantity of the line, the discounted unit price read from
    the product row, the rounded line amount, the name, size and SKU of
    the row, the id of the new order; and the subtotal of the order is
    what [sum] gives for the amounts of these items in that order. *)
Theorem checkout_snapshots_every_line current_user req env db :
  succeeded (fst (checkout current_user req env db)) = true ->
  exists o order_id new_items,
    orders (snd (checkout current_user req env db)) = (orders db ++ [o])%list
    /\ Order.id o = Some order_id
    /\ order_items (snd (checkout current_user req env db))
       = (order_items db ++ new_items)%list
    /\ Permutation (query_all env (cart_of current_user db))
                   (cart_of current_user db)
    /\ Forall2 (fun c oi =>
         exists p unit_price,
           products db !! CartItem.product_id c = Some p
           /\ Product.get_discounted_price p = inl unit_price
           /\ oi = snapshot order_id c p unit_price)
         (query_all env (cart_of current_user db)) new_items
    /\ Order.subtotal o
       = py_sum (python env) (List.map OrderItem.subtotal new_items).
Proof.
  intros Hs.
  destruct (checkout_succeeded_order _ _ _ _ Hs)
    as (totals' & Ht' & _ & _ & Ho & _).
  destruct (checkout_succeeded_inv _ _ _ _ Hs)
    as (totals & s1 & _ & Ht & _ & _ & _ & _ & Hloop & Hsnd).
  rewrite Ht in Ht'. injection Ht' as <-.
  destruct (tx_for_order_line_items _ _ _ _ Hloop)
    as (new_items & Hnew & Hall).
  eexists _, _, new_items. split; [exact Ho|]. split; [reflexivity|].
  rewrite Hsnd. simpl. split; [exact Hnew|].
  split; [apply query_all_perm|]. split; [exact Hall|].
  apply checkout_totals_inv in Ht as (Hsum & _).
  assert (priced db (query_all env (cart_of current_user db))
            (List.map (fun oi => (OrderItem.unit_price oi,
                                  OrderItem.quantity oi)) new_items))
    as Hpriced.
  { unfold priced. simpl in Hall. clear -Hall.
    induction Hall as [|c oi cs ois (p & u & Hp & Hu & ->) _ IH]; simpl;
      constructor; [|exact IH].
    exists p. done. }
  rewrite (sum_subtotals_priced _ _ _ _ Hpriced) in Hsum.
  injection Hsum as <-. f_equal.
  clear -Hall. induction Hall as [|c oi cs ois (p & u & _ & _ & ->) _ IH];
    simpl; [done|]. by rewrite IH.
Qed.

(** Three lines, put in the cart for the products 3, 2 and 1 at 0.30,
    0.20 and 0.10.  When the data store returns them by product, the
    items are stored for the products 1, 2, 3 and the running sum is
    0.6000000000000001, the compensated sum 0.6; when it returns them as
    they were inserted, the items are stored for 3, 2, 1 and both sums
    are 0.6. *)
Lemma checkout_snapshots_every_line_witness :
  (List.map CartItem.product_id (cart_of 7 Sample.three_lines) = [3; 2; 1]
   /\ List.map
        (fun env =>
           let db := snd (checkout 7 Sample.submit env Sample.three_lines) in
           (List.map OrderItem.product_id (order_items db),
            List.map Order.subtotal (orders db)))
        [Sample.env_index CPython_3_11; Sample.env_index CPython_3_12;
         Sample.env_a]
      = [([1; 2; 3], [Sample.dec 6000000000000001 10000000000000000]);
         ([1; 2; 3], [Sample.dec 6 10]);
         ([3; 2; 1], [Sample.dec 6 10])])
  /\ exists o order_id new_items,
       orders (snd (checkout 7 Sample.submit (Sample.env_index CPython_3_11)
                      Sample.three_lines))
       = (orders Sample.three_lines ++ [o])%list
       /\ Order.id o = Some order_id
       /\ order_items (snd (checkout 7 Sample.submit
                              (Sample.env_index CPython_3_11)
                              Sample.three_lines))
          = (order_items Sample.three_lines ++ new_items)%list
       /\ Permutation
            (query_all (Sample.env_index CPython_3_11)
               (cart_of 7 Sample.three_lines))
            (cart_of 7 Sample.three_lines)
       /\ Forall2 (fun c oi =>
            exists p unit_price,
              products Sample.three_lines !! CartItem.product_id c = Some p
              /\ Product.get_discounted_price p = inl unit_price
              /\ oi = snapshot order_id c p unit_price)
            (query_all (Sample.env_index CPython_3_11)
               (cart_of 7 Sample.three_lines)) new_items
       /\ Order.subtotal o
          = py_sum CPython_3_11 (List.map OrderItem.subtotal new_items).
Proof.
  split; [vm_compute; done|].
  apply (checkout_snapshots_every_line 7 Sample.submit
           (Sample.env_index CPython_3_11) Sample.three_lines).
  vm_compute; reflexivity.
Defined.

(** X2. A successful checkout takes from the stock of every product exactly
    the units on the cart lines of the user, and changes nothing else in
    the catalogue: no row is added or removed, and each row keeps its
    name, size, SKU, price, discount and active flag. *)
Theorem checkout_takes_the_units_from_stock current_user req env db pid :
  succeeded (fst (checkout current_user req env db)) = true ->
  match products db !! pid,
        products (snd (checkout current_user req env db)) !! pid with
  | Some p, Some p' =>
      same_but_stock p p'
      /\ Product.stock_quantity p'
         = Product.stock_quantity p - units_of pid (cart_of current_user db)
  | None, None => True
  | _, _ => False
  end.
Proof.
  intros Hs.
  destruct (checkout_succeeded_inv _ _ _ _ Hs)
    as (totals & s1 & _ & _ & _ & _ & _ & _ & Hloop & ->).
  rewrite <- (units_of_perm pid _ _
                (query_all_perm env (cart_of current_user db))).
  exact (tx_for_order_line_products _ _ _ _ Hloop pid).
Qed.

Lemma checkout_takes_the_units_from_stock_witness :
  match products Sample.discounted_cart !! 1,
        products (snd (checkout 7 Sample.submit Sample.env_a
                         Sample.discounted_cart)) !! 1 with
  | Some p, Some p' =>
      same_but_stock p p'
      /\ Product.stock_quantity p'
         = Product.stock_quantity p
           - units_of 1 (cart_of 7 Sample.discounted_cart)
  | None, None => True
  | _, _ => False
  end.
Proof.
  apply (checkout_takes_the_units_from_stock 7 Sample.submit Sample.env_a
           Sample.discounted_cart 1).
  vm_compute; reflexivity.
Defined.

Lemma filter_other_user (u other : Z) (l : list CartItem.t) :
  other <> u ->
  List.filter (fun c => CartItem.user_id c =? other)
    (List.filter (fun c => negb (CartItem.user_id c =? u)) l)
  = List.filter (fun c => CartItem.user_id c =? other) l.
Proof.
  intros Hne. induction l as [|c l IH]; [done|]. simpl.
  destruct (CartItem.user_id c =? u) eqn:Eu; simpl.
  - assert ((CartItem.user_id c =? other) = false) as -> by lia. exact IH.
  - by rewrite IH.
Qed.

(** X3. Whatever its outcome, checkout leaves the cart lines of every other
    user as they were. *)
Theorem checkout_leaves_other_carts current_user other req env db :
  other <> current_user ->
  cart_of other (snd (checkout current_user req env db)) = cart_of other db.
Proof.
  intros Hne.
  destruct (succeeded (fst (checkout current_user req env db))) eqn:Hs.
  - unfold cart_of. rewrite (checkout_succeeded_cart _ _ _ _ Hs).
    by apply filter_other_user.
  - by rewrite (checkout_failed_unchanged _ _ _ _ Hs).
Qed.

Lemma checkout_leaves_other_carts_witness :
  cart_of 8 (snd (checkout 7 Sample.submit Sample.env_a
                    (snd Sample.last_unit_2)))
  = cart_of 8 (snd Sample.last_unit_2).
Proof.
  apply (checkout_leaves_other_carts 7 8 Sample.submit Sample.env_a
           (snd Sample.last_unit_2)).
  lia.
Defined.

(** X4. After a successful checkout the same user's next checkout, whatever
    the request, finds the cart empty and writes nothing: a repeated
    submission does not place a second order. *)
Theorem checkout_again_finds_empty_cart current_user req req' env env' db :
  succeeded (fst (checkout current_user req env db)) = true ->
  checkout current_user req' env'
    (snd (checkout current_user req env db))
  = (cart_is_empty, snd (checkout current_user req env db)).
Proof.
  intros Hs.
  destruct (checkout_succeeded_order _ _ _ _ Hs) as (_ & _ & _ & _ & _ & Hc).
  unfold checkout at 1. by rewrite Hc.
Qed.

Lemma checkout_again_finds_empty_cart_witness :
  checkout 7 Sample.submit Sample.env_b
    (snd (checkout 7 Sample.submit Sample.env_a Sample.discounted_cart))
  = (cart_is_empty,
     snd (checkout 7 Sample.submit Sample.env_a Sample.discounted_cart)).
Proof.
  apply (checkout_again_finds_empty_cart 7 Sample.submit Sample.submit
           Sample.env_a Sample.env_b Sample.discounted_cart).
  vm_compute; reflexivity.
Defined.

(** X5. Checkout never alters or deletes a stored order or order item: the
    rows that were there stay, in place, and at most one order is added
    behind them. *)
Theorem checkout_keeps_stored_orders current_user req env db :
  exists new_orders new_items,
    orders (snd (checkout current_user req env db))
    = (orders db ++ new_orders)%list
    /\ order_items (snd (checkout current_user req env db))
       = (order_items db ++ new_items)%list
    /\ (length new_orders <= 1)%nat
    /\ (new_orders = [] -> new_items = []).
Proof.
  destruct (succeeded (fst (checkout current_user req env db))) eqn:Hs.
  - destruct (checkout_succeeded_order _ _ _ _ Hs)
      as (totals' & _ & _ & _ & Ho & _).
    destruct (checkout_succeeded_inv _ _ _ _ Hs)
      as (totals & s1 & _ & _ & _ & _ & _ & _ & Hloop & Hsnd).
    destruct (tx_for_order_line_items _ _ _ _ Hloop) as (new & Hnew & _).
    eexists [_], new. split; [exact Ho|]. rewrite Hsnd. simpl.
    split; [exact Hnew|]. split; [simpl; lia|done].
  - rewrite (checkout_failed_unchanged _ _ _ _ Hs).
    exists [], []. rewrite !app_nil_r. repeat split. simpl. lia.
Qed.

Lemma find_order_fresh n u (l : list Order.t) :
  existsb (String.eqb n) (List.map Order.order_number l) = false ->
  List.find (fun o => String.eqb (Order.order_number o) n
                      && (Order.user_id o =? u)) l = None.
Proof.
  induction l as [|o l IH]; [done|]. simpl.
  intros H. apply orb_false_iff in H as [Hn Hl].
  rewrite String.eqb_sym, Hn. simpl. by apply IH.
Qed.

Lemma find_after_none {A} (f : A -> bool) (l l' : list A) :
  List.find f l = None -> List.find f (l ++ l') = List.find f l'.
Proof.
  induction l as [|a l IH]; [done|]. simpl.
  destruct (f a); [done|]. exact IH.
Qed.

(** X6. The confirmation page of a placed order: the order number that
    checkout hands to the shopper finds, for that shopper, the order just
    stored, and for every other user it is a 404. *)
Theorem confirmation_page_finds_the_order current_user req env db n :
  fst (checkout current_user req env db) = order_placed n ->
  (exists o,
     order_confirmation n current_user
       (snd (checkout current_user req env db)) = Some o
     /\ orders (snd (checkout current_user req env db))
        = (orders db ++ [o])%list
     /\ Order.order_number o = n
     /\ Order.user_id o = current_user)
  /\ (forall other,
        other <> current_user ->
        order_confirmation n other
          (snd (checkout current_user req env db)) = None).
Proof.
  intros Hfst.
  assert (succeeded (fst (checkout current_user req env db)) = true) as Hs.
  { by rewrite Hfst. }
  destruct (checkout_succeeded_order _ _ _ _ Hs)
    as (t & _ & Hfst' & Hfree & Ho & _).
  rewrite Hfst in Hfst'. injection Hfst' as ->.
  unfold order_confirmation. rewrite Ho.
  rewrite (find_after_none _ _ _ (find_order_fresh _ current_user _ Hfree)).
  split.
  - eexists. cbn [List.find].
    change (Order.order_number (Order.inserted _ _))
      with (new_order_number env).
    change (Order.user_id (Order.inserted _ _)) with current_user.
    rewrite String.eqb_refl, Z.eqb_refl. done.
  - intros other Hne.
    rewrite (find_after_none _ _ _ (find_order_fresh _ other _ Hfree)).
    cbn [List.find].
    change (Order.user_id (Order.inserted _ _)) with current_user.
    assert ((current_user =? other) = false) as -> by lia.
    by rewrite andb_false_r.
Qed.

Lemma confirmation_page_finds_the_order_witness :
  (exists o,
     order_confirmation "ORD-20240309-DEADBEEF" 7
       (snd (checkout 7 Sample.submit Sample.env_a Sample.discounted_cart))
     = Some o
     /\ orders (snd (checkout 7 Sample.submit Sample.env_a
                       Sample.discounted_cart))
        = (orders Sample.discounted_cart ++ [o])%list
     /\ Order.order_number o = "ORD-20240309-DEADBEEF"
     /\ Order.user_id o = 7)
  /\ (forall other,
        other <> 7 ->
        order_confirmation "ORD-20240309-DEADBEEF" other
          (snd (checkout 7 Sample.submit Sample.env_a
                  Sample.discounted_cart)) = None).
Proof.
  apply (confirmation_page_finds_the_order 7 Sample.submit Sample.env_a
           Sample.discounted_cart "ORD-20240309-DEADBEEF").
  vm_compute; reflexivity.
Defined.

(** X7. The order pages answer only with an order of the requesting user
    that carries the requested number. *)
Theorem order_pages_show_own_orders_only n current_user db o :
  order_confirmation n current_user db = Some o ->
  In o (orders db)
  /\ Order.order_number o = n
  /\ Order.user_id o = current_user.
Proof.
  unfold order_confirmation. intros H.
  apply List.find_some in H as [Hin Hb].
  apply andb_true_iff in Hb as [Hn Hu].
  apply String.eqb_eq in Hn. split; [done|]. split; [done|lia].
Qed.

Lemma order_pages_show_own_orders_only_witness :
  exists o,
    In o (orders Sample.taken)
    /\ Order.order_number o = "ORD-20240309-DEADBEEF"
    /\ Order.user_id o = 7.
Proof.
  eexists.
  apply (order_pages_show_own_orders_only "ORD-20240309-DEADBEEF" 7
           Sample.taken).
  vm_compute; reflexivity.
Defined.

(** ** The cart views *)

Lemma next_id_fresh (ids : list Z) : ~ In (next_id ids) ids.
Proof.
  assert (forall x, In x ids -> x <= List.fold_right Z.max 0 ids) as Hmax.
  { induction ids as [|i ids IH]; [done|]. simpl.
    intros x [->|Hx]; [lia|]. specialize (IH x Hx). lia. }
  intros Hin. apply Hmax in Hin. unfold next_id in Hin. lia.
Qed.

Lemma find_none_pair (u pid : Z) (l : list CartItem.t) :
  List.find (fun c => (CartItem.user_id c =? u)
                      && (CartItem.product_id c =? pid)) l = None ->
  ~ In (u, pid)
       (List.map (fun c => (CartItem.user_id c, CartItem.product_id c)) l).
Proof.
  induction l as [|c l IH]; [by intros _ []|]. simpl.
  destruct ((CartItem.user_id c =? u) && (CartItem.product_id c =? pid))
    eqn:E; [done|].
  intros Hnone [[= Hu Hp]|Hin]; [|by apply IH].
  rewrite Hu, Hp, !Z.eqb_refl in E. done.
Qed.

Lemma map_set_quantity_keys (P : CartItem.t -> bool) (q : Z)
    (l : list CartItem.t) :
  List.map CartItem.id
    (List.map (fun c => if P c then CartItem.set_quantity q c else c) l)
  = List.map CartItem.id l
  /\ List.map (fun c => (CartItem.user_id c, CartItem.product_id c))
       (List.map (fun c => if P c then CartItem.set_quantity q c else c) l)
     = List.map (fun c => (CartItem.user_id c, CartItem.product_id c)) l.
Proof.
  induction l as [|c l [IH1 IH2]]; [done|]. simpl.
  rewrite IH1, IH2. by destruct (P c).
Qed.

Lemma Forall_map_set_quantity (P : CartItem.t -> bool) (q : Z)
    (l : list CartItem.t) :
  1 <= q ->
  Forall (fun c => 1 <= CartItem.quantity c) l ->
  Forall (fun c => 1 <= CartItem.quantity c)
    (List.map (fun c => if P c then CartItem.set_quantity q c else c) l).
Proof.
  intros Hq. induction 1 as [|c l Hc _ IH]; simpl; constructor; [|done].
  by destruct (P c).
Qed.

(** X8. [add_to_cart] keeps the constraints of the cart table: ids stay
    unique, there is at most one line per user and product, and every
    quantity is at least one. *)
Theorem add_to_cart_keeps_constraints current_user product_id
    form_quantity referrer env db :
  cart_constraints db ->
  cart_constraints
    (snd (add_to_cart current_user product_id form_quantity referrer env db)).
Proof.
  intros (Hid & Hpair & Hq). unfold add_to_cart.
  destruct (products db !! product_id) as [product|]; [|done].
  destruct (negb (Product.is_active product)
            || negb (Product.is_in_stock product)); [done|].
  destruct (Z.ltb_spec (default 1 form_quantity) 1) as [|Hq1]; [done|].
  destruct (Product.stock_quantity product <? default 1 form_quantity);
    [done|].
  destruct (List.find _ (cart_items db)) as [cart_item|] eqn:Hfind.
  - destruct (Product.stock_quantity product <? _); [done|].
    destruct (fails_at env AtCommit); [done|].
    unfold cart_constraints. simpl.
    destruct (map_set_quantity_keys
                (fun c => CartItem.id c =? CartItem.id cart_item)
                (CartItem.quantity cart_item + default 1 form_quantity)
                (cart_items db)) as [-> ->].
    split; [done|]. split; [done|].
    apply Forall_map_set_quantity; [|done].
    apply List.find_some in Hfind as [Hin _].
    rewrite List.Forall_forall in Hq. specialize (Hq _ Hin). lia.
  - destruct (fails_at env AtCommit); [done|].
    unfold cart_constraints. simpl. rewrite !List.map_app. simpl.
    split; [|split].
    + apply NoDup_app. split; [done|]. split; [|apply NoDup_singleton].
      intros x Hx ->%list_elem_of_singleton. revert Hx.
      rewrite list_elem_of_In. apply next_id_fresh.
    + apply NoDup_app. split; [done|]. split; [|apply NoDup_singleton].
      intros x Hx ->%list_elem_of_singleton. revert Hx.
      rewrite list_elem_of_In. by apply find_none_pair.
    + apply Forall_app. split; [done|]. by constructor.
Qed.

Lemma add_to_cart_keeps_constraints_witness :
  cart_constraints
    (snd (add_to_cart 8 1 (Some 1) None Sample.env_a
            (snd Sample.last_unit_1))).
Proof.
  apply (add_to_cart_keeps_constraints 8 1 (Some 1) None Sample.env_a
           (snd Sample.last_unit_1)).
  unfold cart_constraints.
  repeat split; apply (bool_decide_unpack _); vm_compute; exact I.
Defined.

Lemma find_map_kept {A} (P : A -> bool) (f : A -> A) (l : list A) c0 :
  (forall c, P (f c) = P c) ->
  List.find P l = Some c0 ->
  List.find P (List.map f l) = Some (f c0).
Proof.
  intros HP. induction l as [|c l IH]; [done|]. simpl. rewrite HP.
  destruct (P c); [by intros [= ->]|]. exact IH.
Qed.

(** X9. When [add_to_cart] changes the database, the product is on sale and
    the line of the user for it, new or updated, holds a quantity between
    one and the stock of the product. *)
Theorem add_to_cart_stays_within_stock current_user product_id
    form_quantity referrer env db :
  cart_constraints db ->
  snd (add_to_cart current_user product_id form_quantity referrer env db)
  <> db ->
  exists p c,
    products db !! product_id = Some p
    /\ Product.is_active p = true
    /\ List.find (fun c => (CartItem.user_id c =? current_user)
                           && (CartItem.product_id c =? product_id))
         (cart_items
            (snd (add_to_cart current_user product_id form_quantity
                    referrer env db))) = Some c
    /\ 1 <= CartItem.quantity c <= Product.stock_quantity p.
Proof.
  intros (_ & _ & Hq). unfold add_to_cart.
  destruct (products db !! product_id) as [product|]; [|done].
  destruct (Product.is_active product) eqn:Hact; [|done]. simpl.
  destruct (negb (Product.is_in_stock product)); [done|].
  destruct (Z.ltb_spec (default 1 form_quantity) 1) as [|Hq1]; [done|].
  destruct (Z.ltb_spec (Product.stock_quantity product)
              (default 1 form_quantity)) as [|Hq2]; [done|].
  destruct (List.find _ (cart_items db)) as [cart_item|] eqn:Hfind.
  - destruct (Z.ltb_spec (Product.stock_quantity product)
                (CartItem.quantity cart_item + default 1 form_quantity))
      as [|Hq3]; [done|].
    destruct (fails_at env AtCommit); [done|]. intros _.
    exists product, (CartItem.set_quantity
      (CartItem.quantity cart_item + default 1 form_quantity) cart_item).
    split; [done|]. split; [done|]. simpl. split.
    + erewrite find_map_kept; [| |exact Hfind].
      * by rewrite Z.eqb_refl.
      * intros c. by destruct (CartItem.id c =? CartItem.id cart_item).
    + apply List.find_some in Hfind as [Hin _].
      rewrite List.Forall_forall in Hq. specialize (Hq _ Hin). lia.
  - destruct (fails_at env AtCommit); [done|]. intros _.
    eexists product, _. split; [done|]. split; [done|]. simpl. split.
    + rewrite (find_after_none _ _ _ Hfind). simpl.
      by rewrite !Z.eqb_refl.
    + simpl. lia.
Qed.

Lemma add_to_cart_stays_within_stock_witness :
  exists p c,
    products (snd Sample.outsold_1) !! 1 = Some p
    /\ Product.is_active p = true
    /\ List.find (fun c => (CartItem.user_id c =? 8)
                           && (CartItem.product_id c =? 1))
         (cart_items
            (snd (add_to_cart 8 1 (Some 1) None Sample.env_a
                    (snd Sample.outsold_1)))) = Some c
    /\ 1 <= CartItem.quantity c <= Product.stock_quantity p.
Proof.
  apply (add_to_cart_stays_within_stock 8 1 (Some 1) None Sample.env_a
           (snd Sample.outsold_1)).
  - unfold cart_constraints.
    repeat split; apply (bool_decide_unpack _); vm_compute; exact I.
  - intros H. apply (f_equal cart_items) in H. vm_compute in H.
    discriminate.
Defined.

Lemma unique_cart_id (l : list CartItem.t) :
  NoDup (List.map CartItem.id l) ->
  forall x y, In x l -> In y l -> CartItem.id x = CartItem.id y -> x = y.
Proof.
  induction l as [|c l IH]; [by intros _ x y []|]. simpl.
  intros [Hc Hl]%NoDup_cons x y [<-|Hx] [<-|Hy] Hid; try done.
  - exfalso. apply Hc. rewrite Hid. apply list_elem_of_In.
    by apply List.in_map.
  - exfalso. apply Hc. rewrite <- Hid. apply list_elem_of_In.
    by apply List.in_map.
  - by apply IH.
Qed.

Lemma own_cart_item_inv current_user item_id db c :
  own_cart_item current_user item_id db = Some c ->
  In c (cart_items db)
  /\ CartItem.id c = item_id
  /\ CartItem.user_id c = current_user.
Proof.
  unfold own_cart_item. intros H. apply List.find_some in H as [Hin Hb].
  apply andb_true_iff in Hb. split; [done|]. lia.
Qed.

(** Rewriting one line of a user leaves the lines of another user. *)
Lemma filter_other_after_update (other q : Z) c0 (l : list CartItem.t) :
  NoDup (List.map CartItem.id l) -> In c0 l ->
  other <> CartItem.user_id c0 ->
  List.filter (fun c => CartItem.user_id c =? other)
    (List.map (fun c => if CartItem.id c =? CartItem.id c0
                        then CartItem.set_quantity q c else c) l)
  = List.filter (fun c => CartItem.user_id c =? other) l.
Proof.
  intros Hnd Hin Hne.
  assert (forall x, In x l -> CartItem.id x = CartItem.id c0 -> x = c0)
    as Huniq by (intros x Hx Hi; by apply (unique_cart_id l Hnd)).
  clear Hnd Hin. induction l as [|c l IH]; [done|]. simpl.
  rewrite IH by (intros x Hx; apply Huniq; by right).
  destruct (Z.eqb_spec (CartItem.id c) (CartItem.id c0)) as [Hid|_];
    [|done].
  rewrite (Huniq c (or_introl eq_refl) Hid). simpl.
  by assert ((CartItem.user_id c0 =? other) = false) as -> by lia.
Qed.

Lemma filter_other_after_delete (other : Z) c0 (l : list CartItem.t) :
  NoDup (List.map CartItem.id l) -> In c0 l ->
  other <> CartItem.user_id c0 ->
  List.filter (fun c => CartItem.user_id c =? other)
    (List.filter (fun c => negb (CartItem.id c =? CartItem.id c0)) l)
  = List.filter (fun c => CartItem.user_id c =? other) l.
Proof.
  intros Hnd Hin Hne.
  assert (forall x, In x l -> CartItem.id x = CartItem.id c0 -> x = c0)
    as Huniq by (intros x Hx Hi; by apply (unique_cart_id l Hnd)).
  clear Hnd Hin. induction l as [|c l IH]; [done|]. simpl.
  specialize (IH (fun x Hx => Huniq x (or_intror Hx))).
  destruct (Z.eqb_spec (CartItem.id c) (CartItem.id c0)) as [Hid|_]; simpl.
  - rewrite (Huniq c (or_introl eq_refl) Hid).
    by assert ((CartItem.user_id c0 =? other) = false) as -> by lia.
  - by rewrite IH.
Qed.

(** X10. The cart views write to the cart lines of the requesting user only:
    after [add_to_cart], [update_cart_item], [remove_from_cart] and
    [clear_cart] the lines of every other user, the products, the orders
    and the order items are as before.  In particular an item id that
    belongs to somebody else changes nothing. *)
Theorem cart_views_touch_only_own_lines current_user other product_id
    item_id form_quantity referrer env db :
  cart_constraints db ->
  other <> current_user ->
  Forall (fun after =>
            cart_of other after = cart_of other db
            /\ products after = products db
            /\ orders after = orders db
            /\ order_items after = order_items db)
    [snd (add_to_cart current_user product_id form_quantity referrer env db);
     snd (update_cart_item current_user item_id form_quantity env db);
     snd (remove_from_cart current_user item_id env db);
     snd (clear_cart current_user env db)].
Proof.
  intros (Hid & _ & _) Hne. repeat constructor.
  - unfold add_to_cart.
    destruct (products db !! product_id) as [product|]; [|done].
    destruct (_ || _); [done|].
    destruct (_ <? 1); [done|]. destruct (_ <? _); [done|].
    destruct (List.find _ _) as [c0|] eqn:Hfind.
    + destruct (_ <? _); [done|]. destruct (fails_at _ _); [done|].
      apply List.find_some in Hfind as [Hin Hb]. unfold cart_of. simpl.
      apply filter_other_after_update; [done|done|lia].
    + destruct (fails_at _ _); [done|]. unfold cart_of. simpl.
      rewrite List.filter_app. simpl.
      assert ((current_user =? other) = false) as -> by lia.
      by rewrite app_nil_r.
  - unfold add_to_cart. repeat case_match; done.
  - unfold add_to_cart. repeat case_match; done.
  - unfold add_to_cart. repeat case_match; done.
  - unfold update_cart_item.
    destruct (own_cart_item _ _ _) as [c0|] eqn:Hown; [|done].
    apply own_cart_item_inv in Hown as (Hin & _ & Hu).
    destruct (_ <? 1); [done|].
    destruct (products db !! _); [|done].
    destruct (_ <? _); [done|]. destruct (fails_at _ _); [done|].
    unfold cart_of. simpl. apply filter_other_after_update; [done|done|lia].
  - unfold update_cart_item. repeat case_match; done.
  - unfold update_cart_item. repeat case_match; done.
  - unfold update_cart_item. repeat case_match; done.
  - unfold remove_from_cart.
    destruct (own_cart_item _ _ _) as [c0|] eqn:Hown; [|done].
    apply own_cart_item_inv in Hown as (Hin & _ & Hu).
    destruct (_ || _); [done|].
    unfold cart_of. simpl. apply filter_other_after_delete; [done|done|lia].
  - unfold remove_from_cart. repeat case_match; done.
  - unfold remove_from_cart. repeat case_match; done.
  - unfold remove_from_cart. repeat case_match; done.
  - unfold clear_cart. destruct (_ || _); [done|].
    unfold cart_of. simpl. by apply filter_other_user.
  - unfold clear_cart. repeat case_match; done.
  - unfold clear_cart. repeat case_match; done.
  - unfold clear_cart. repeat case_match; done.
Qed.

Lemma cart_views_touch_only_own_lines_witness :
  Forall (fun after =>
            cart_of 8 after = cart_of 8 (snd Sample.last_unit_2)
            /\ products after = products (snd Sample.last_unit_2)
            /\ orders after = orders (snd Sample.last_unit_2)
            /\ order_items after = order_items (snd Sample.last_unit_2))
    [snd (add_to_cart 7 1 (Some 1) None Sample.env_a
            (snd Sample.last_unit_2));
     snd (update_cart_item 7 2 (Some 1) Sample.env_a
            (snd Sample.last_unit_2));
     snd (remove_from_cart 7 2 Sample.env_a (snd Sample.last_unit_2));
     snd (clear_cart 7 Sample.env_a (snd Sample.last_unit_2))].
Proof.
  apply (cart_views_touch_only_own_lines 7 8 1 2 (Some 1) None Sample.env_a
           (snd Sample.last_unit_2)).
  - unfold cart_constraints.
    repeat split; apply (bool_decide_unpack _); vm_compute; exact I.
  - lia.
Defined.



Lemma NoDup_map_filter {A B} (g : A -> B) (P : A -> bool) (l : list A) :
  NoDup (List.map g l) -> NoDup (List.map g (List.filter P l)).
Proof.
  induction l as [|a l IH]; [done|]. simpl.
  intros [Ha Hl]%NoDup_cons. destruct (P a); simpl; [|by apply IH].
  apply NoDup_cons. split; [|by apply IH].
  intros Hin. apply Ha. apply list_elem_of_In in Hin.
  apply list_elem_of_In. apply List.in_map_iff in Hin as (x & Hx & Hin).
  apply List.filter_In in Hin as [Hin _].
  apply List.in_map_iff. by exists x.
Qed.

Lemma cart_constraints_filter (P : CartItem.t -> bool) db :
  cart_constraints db ->
  cart_constraints (set_cart_items (List.filter P) db).
Proof.
  intros (Hid & Hpair & Hq). unfold cart_constraints. simpl.
  split; [by apply NoDup_map_filter|]. split; [by apply NoDup_map_filter|].
  apply List.Forall_forall. intros c [Hin _]%List.filter_In.
  rewrite List.Forall_forall in Hq. by apply Hq.
Qed.

(** X12. [update_cart_item], [remove_from_cart], [clear_cart] and [checkout]
    keep the constraints of the cart table. *)
Theorem cart_constraints_are_kept current_user item_id form_quantity req
    env db :
  cart_constraints db ->
  Forall cart_constraints
    [snd (update_cart_item current_user item_id form_quantity env db);
     snd (remove_from_cart current_user item_id env db);
     snd (clear_cart current_user env db);
     snd (checkout current_user req env db)].
Proof.
  intros Hc.
  repeat match goal with |- Forall _ _ => constructor end.
  - unfold update_cart_item.
    destruct (own_cart_item _ _ _) as [c|]; [|done].
    destruct (Z.ltb_spec (default 1 form_quantity) 1); [done|].
    destruct (products db !! _); [|done].
    destruct (_ <? _); [done|]. destruct (fails_at _ _); [done|].
    destruct Hc as (Hid & Hpair & Hq). unfold cart_constraints. simpl.
    destruct (map_set_quantity_keys
                (fun x => CartItem.id x =? CartItem.id c)
                (default 1 form_quantity) (cart_items db)) as [-> ->].
    split; [done|]. split; [done|].
    apply Forall_map_set_quantity; [lia|done].
  - unfold remove_from_cart.
    destruct (own_cart_item _ _ _) as [c|]; [|done].
    destruct (_ || _); [done|]. by apply cart_constraints_filter.
  - unfold clear_cart.
    destruct (_ || _); [done|]. by apply cart_constraints_filter.
  - destruct (succeeded (fst (checkout current_user req env db))) eqn:Hs.
    + pose proof (checkout_succeeded_cart _ _ _ _ Hs) as Hcart.
      pose proof (cart_constraints_filter
        (fun c => negb (CartItem.user_id c =? current_user)) db Hc) as H.
      unfold cart_constraints in *. simpl in H. by rewrite Hcart.
    + by rewrite (checkout_failed_unchanged _ _ _ _ Hs).
Qed.

Lemma cart_constraints_are_kept_witness :
  Forall cart_constraints
    [snd (update_cart_item 7 1 (Some 1) Sample.env_a (snd Sample.outsold_2));
     snd (remove_from_cart 7 1 Sample.env_a (snd Sample.outsold_2));
     snd (clear_cart 7 Sample.env_a (snd Sample.outsold_2));
     snd (checkout 7 Sample.submit Sample.env_a (snd Sample.outsold_2))].
Proof.
  apply (cart_constraints_are_kept 7 1 (Some 1) Sample.submit Sample.env_a
           (snd Sample.outsold_2)).
  unfold cart_constraints.
  repeat split; apply (bool_decide_unpack _); vm_compute; exact I.
Defined.



(** X14. Unless the data store refuses it, [clear_cart] leaves the user
    without cart lines, and the checkout that follows is turned away with
    "Your cart is empty." and writes nothing. *)
Theorem clear_cart_then_checkout current_user req env env' db :
  store_fault env = None ->
  cart_of current_user (snd (clear_cart current_user env db)) = []
  /\ checkout current_user req env' (snd (clear_cart current_user env db))
     = (cart_is_empty, snd (clear_cart current_user env db)).
Proof.
  intros Hok.
  assert (cart_of current_user (snd (clear_cart current_user env db)) = [])
    as Hempty.
  { unfold clear_cart, fails_at. rewrite Hok. simpl. unfold cart_of. simpl.
    apply filter_own_after_clear. }
  split; [done|]. unfold checkout. by rewrite Hempty.
Qed.

Lemma clear_cart_then_checkout_witness :
  cart_of 7 (snd (clear_cart 7 Sample.env_a (snd Sample.outsold_2))) = []
  /\ checkout 7 Sample.submit Sample.env_b
       (snd (clear_cart 7 Sample.env_a (snd Sample.outsold_2)))
     = (cart_is_empty, snd (clear_cart 7 Sample.env_a (snd Sample.outsold_2))).
Proof.
  apply (clear_cart_then_checkout 7 Sample.submit Sample.env_a Sample.env_b
           (snd Sample.outsold_2)).
  reflexivity.
Defined.

(** ** The discounted price is not negative *)

Lemma not_negative_round_aux m e l :
  not_negative (binary_round_aux prec emax false m e l) = true.
Proof.
  unfold binary_round_aux.
  destruct (shr_fexp prec emax m e l) as [mrs' e'].
  destruct (shr_fexp prec emax _ e' loc_Exact) as [mrs'' e''].
  destruct (shr_m mrs''); [done| |done].
  by destruct (e'' <=? emax - prec).
Qed.

Lemma not_negative_round m e :
  not_negative (binary_round prec emax false m e) = true.
Proof.
  unfold binary_round. destruct (shl_align _ _ _) as [mz ez].
  apply not_negative_round_aux.
Qed.

Lemma not_negative_of_ratio n d :
  not_negative (float_of_ratio false n d) = true.
Proof.
  unfold float_of_ratio.
  destruct (SFdiv_core_binary _ _ _ _ _ _) as [[q e] l].
  apply not_negative_round_aux.
Qed.

Lemma not_negative_round2 x :
  not_negative x = true -> not_negative (round2 x) = true.
Proof.
  destruct x as [s|s| |s m e]; try done.
  destruct s; [done|]. intros _. unfold round2.
  destruct (hundredths m e); [done| |done].
  apply not_negative_of_ratio.
Qed.

Lemma not_negative_fmul a b :
  not_negative a = true -> not_negative b = true ->
  not_negative (fmul a b) = true.
Proof.
  destruct a as [sa|sa| |sa ma ea], b as [sb|sb| |sb mb eb];
    try done; try (by destruct sa); try (by destruct sb);
    try (by destruct sa, sb).
  destruct sa, sb; try done. intros _ _.
  apply not_negative_round_aux.
Qed.

(** Shifting right keeps the bound. *)

Lemma pow2_step k : 0 < k -> 2 ^ k = 2 * 2 ^ (k - 1) /\ 0 < 2 ^ (k - 1).
Proof.
  intros H. split.
  - rewrite <- Z.pow_succ_r by lia. f_equal. lia.
  - apply Z.pow_pos_nonneg; lia.
Qed.

Lemma shr_1_below mrs k :
  0 < k -> below_pow2 mrs k -> below_pow2 (shr_1 mrs) (k - 1).
Proof.
  intros Hk [Hm Htop]. destruct (pow2_step k Hk) as [Hpow Hpos].
  destruct mrs as [m r s]. simpl in Hm, Htop. unfold below_pow2.
  destruct m as [|[p|p|]|p]; simpl.
  - split; [lia|]. intros Heq. lia.
  - change (Zpos p~1) with (2 * Zpos p + 1) in Hm.
    split; [lia|]. intros Heq. lia.
  - change (Zpos p~0) with (2 * Zpos p) in Hm, Htop.
    split; [lia|]. intros Heq.
    destruct Htop as [-> ->]; [lia|done].
  - split; [lia|]. intros Heq. lia.
  - lia.
Qed.

Lemma iter_shr_1_below n : forall mrs k,
  Zpos n <= k -> below_pow2 mrs k ->
  below_pow2 (SpecFloat.iter_pos shr_1 n mrs) (k - Zpos n).
Proof.
  induction n as [n IH|n IH|]; intros mrs k Hk H; simpl.
  - change (Zpos n~1) with (2 * Zpos n + 1) in *.
    replace (k - (2 * Zpos n + 1)) with (k - 1 - Zpos n - Zpos n) by lia.
    apply IH; [lia|]. apply IH; [lia|]. apply shr_1_below; [lia|done].
  - change (Zpos n~0) with (2 * Zpos n) in *.
    replace (k - 2 * Zpos n) with (k - Zpos n - Zpos n) by lia.
    apply IH; [lia|]. apply IH; [lia|done].
  - apply shr_1_below; [lia|done].
Qed.

Lemma shr_below mrs e n :
  e <= 0 -> e + n <= 0 -> below_pow2 mrs (- e) ->
  snd (shr mrs e n) <= 0
  /\ below_pow2 (fst (shr mrs e n)) (- snd (shr mrs e n)).
Proof.
  intros He Hn H. destruct n as [|p|p]; simpl; try done.
  split; [lia|].
  replace (- (e + Zpos p)) with (- e - Zpos p) by lia.
  apply iter_shr_1_below; [lia|done].
Qed.

Lemma digits2_lower p : 2 ^ (Zpos (digits2_pos p) - 1) <= Zpos p.
Proof.
  induction p as [p IH|p IH|]; simpl digits2_pos; [| |done].
  - rewrite Pos2Z.inj_succ. change (Zpos p~1) with (2 * Zpos p + 1).
    replace (Z.succ (Zpos (digits2_pos p)) - 1)
      with (Z.succ (Zpos (digits2_pos p) - 1)) by lia.
    rewrite Z.pow_succ_r by lia. lia.
  - rewrite Pos2Z.inj_succ. change (Zpos p~0) with (2 * Zpos p).
    replace (Z.succ (Zpos (digits2_pos p)) - 1)
      with (Z.succ (Zpos (digits2_pos p) - 1)) by lia.
    rewrite Z.pow_succ_r by lia. lia.
Qed.

Lemma digits2_upper p : Zpos p < 2 ^ Zpos (digits2_pos p).
Proof.
  induction p as [p IH|p IH|]; simpl digits2_pos; [| |done].
  - rewrite Pos2Z.inj_succ, Z.pow_succ_r by lia.
    change (Zpos p~1) with (2 * Zpos p + 1). lia.
  - rewrite Pos2Z.inj_succ, Z.pow_succ_r by lia.
    change (Zpos p~0) with (2 * Zpos p). lia.
Qed.

Lemma Zdigits2_below m k :
  0 <= k -> 0 <= m <= 2 ^ k -> Zdigits2 m <= k + 1.
Proof.
  intros Hk Hm. destruct m as [|p|p]; simpl; [lia| |lia].
  pose proof (digits2_lower p) as Hl.
  assert (2 ^ (Zpos (digits2_pos p) - 1) <= 2 ^ k) as Hle by lia.
  apply Z.pow_le_mono_r_iff in Hle; lia.
Qed.

Lemma fexp_below x : x <= 53 -> fexp prec emax x <= 0.
Proof. unfold fexp, SpecFloat.emin, prec, emax. lia. Qed.

Lemma shr_fexp_below m e l :
  e <= 0 -> below_pow2 (shr_record_of_loc m l) (- e) ->
  snd (shr_fexp prec emax m e l) <= 0
  /\ below_pow2 (fst (shr_fexp prec emax m e l))
                (- snd (shr_fexp prec emax m e l)).
Proof.
  intros He H. unfold shr_fexp. apply shr_below; [done| |done].
  assert (shr_m (shr_record_of_loc m l) = m) as Hm.
  { by destruct l as [|[]]. }
  destruct H as [Hb _]. rewrite Hm in Hb.
  pose proof (Zdigits2_below m (- e) ltac:(lia) Hb).
  pose proof (fexp_below (Zdigits2 m + e) ltac:(lia)). lia.
Qed.

Lemma round_nearest_even_below mrs k :
  below_pow2 mrs k ->
  0 <= round_nearest_even (shr_m mrs) (loc_of_shr_record mrs) <= 2 ^ k.
Proof.
  intros [Hm Htop]. destruct mrs as [m r s]. simpl in Hm, Htop.
  destruct r, s; simpl; try lia;
    assert (m <> 2 ^ k) by (intros E; destruct (Htop E); done);
    try destruct (Z.even m); lia.
Qed.

(** Rounding a value of at most 1 gives at most 1. *)
Lemma binary_round_aux_at_most_one m e l :
  e <= 0 -> below_pow2 (shr_record_of_loc m l) (- e) ->
  at_most_one (binary_round_aux prec emax false m e l).
Proof.
  intros He H. unfold binary_round_aux.
  destruct (shr_fexp_below m e l He H) as [He' H'].
  destruct (shr_fexp prec emax m e l) as [mrs' e']. simpl in He', H'.
  pose proof (round_nearest_even_below _ _ H') as Hr.
  set (m1 := round_nearest_even _ _) in *.
  assert (below_pow2 (shr_record_of_loc m1 loc_Exact) (- e')) as H1.
  { split; [done|]. done. }
  destruct (shr_fexp_below m1 e' loc_Exact He' H1) as [He'' [Hb _]].
  destruct (shr_fexp prec emax m1 e' loc_Exact) as [mrs'' e''].
  simpl in He'', Hb.
  destruct (shr_m mrs'') as [|p|p]; [done| |done].
  assert ((e'' <=? emax - prec) = true) as ->.
  { apply Z.leb_le. unfold emax, prec. lia. }
  simpl. lia.
Qed.

Lemma hundred_eq : hundred = S754_finite false 7036874417766400 (-46).
Proof. reflexivity. Qed.

Lemma one_eq : one = S754_finite false 4503599627370496 (-52).
Proof. reflexivity. Qed.

Lemma bounded_mantissa m e :
  bounded prec emax m e = true -> Zpos m < 2 ^ 53.
Proof.
  unfold bounded, canonical_mantissa, fexp, SpecFloat.emin, prec, emax.
  intros H. apply andb_true_iff in H as [H _]. apply Z.eqb_eq in H.
  pose proof (digits2_upper m) as Hu.
  assert (2 ^ Zpos (digits2_pos m) <= 2 ^ 53) as Hle.
  { apply Z.pow_le_mono_r; lia. }
  lia.
Qed.

(** [x <= y] on two positive finite floats in canonical form. *)
Lemma fle_finite m e c ec :
  fle (S754_finite false m e) (S754_finite false c ec) = true ->
  e < ec \/ (e = ec /\ Zpos m <= Zpos c).
Proof.
  unfold fle, SFleb, SFcompare.
  destruct (Z.compare_spec e ec) as [->|H|H]; [|lia|done].
  intros Hc. right. split; [done|]. revert Hc.
  pose proof (Pos.compare_spec m c) as Hs.
  unfold Pos.compare in Hs.
  destruct Hs as [->|Hs|Hs]; [lia|lia|done].
Qed.

(** The quotient of a float by a larger one, before it is rounded, is at
    most 1, and is exact when it is 1. *)
Lemma div_core_below m e c ec :
  Zpos m < 2 ^ 53 ->
  2 ^ 52 <= Zpos c ->
  Z.even (Zpos c) = true ->
  e < ec \/ (e = ec /\ Zpos m <= Zpos c) ->
  forall q e' l,
    SFdiv_core_binary prec emax (Zpos m) e (Zpos c) ec = (q, e', l) ->
    e' <= 0 /\ below_pow2 (shr_record_of_loc q l) (- e').
Proof.
  intros Hm Hc Heven Hle q e' l. unfold SFdiv_core_binary.
  set (e0 := Z.min _ _).
  assert (e0 <= e - ec) as He0 by (unfold e0; lia).
  set (s := e - ec - e0).
  assert (0 <= s) as Hs by (unfold s; lia).
  set (m' := match s with Z0 => Zpos m | Zpos _ => _ | Zneg _ => _ end).
  assert (m' = Zpos m * 2 ^ s) as Hm'.
  { unfold m'. destruct s as [|p|p] eqn:Es; [lia| |lia].
    rewrite Z.shiftl_mul_pow2; lia. }
  assert (0 < 2 ^ s) as Hpow by (apply Z.pow_pos_nonneg; lia).
  assert (0 < 2 ^ (- e0)) as Hpow0 by (apply Z.pow_pos_nonneg; lia).
  assert (2 ^ 53 = 2 * 2 ^ 52) as E53 by reflexivity.
  assert (m' <= Zpos c * 2 ^ (- e0)) as Hbound.
  { rewrite Hm'. destruct Hle as [Hlt | [-> Hle]].
    - assert (2 * 2 ^ s <= 2 ^ (- e0)) as Hstep.
      { rewrite <- Z.pow_succ_r by lia. apply Z.pow_le_mono_r; lia. }
      nia.
    - replace s with (- e0) by (unfold s; lia). nia. }
  pose proof (Z_div_mod m' (Zpos c) ltac:(lia)) as Hdiv.
  destruct (Z.div_eucl m' (Zpos c)) as [q0 r0].
  destruct Hdiv as [Heq Hr].
  intros [= <- <- <-]. split; [lia|].
  assert (0 <= q0 <= 2 ^ (- e0)) as Hq by nia.
  assert (q0 = 2 ^ (- e0) -> r0 = 0) as Hexact by nia.
  unfold new_location. rewrite Heven. unfold new_location_even.
  destruct (Z.eqb_spec r0 0) as [->|Hne].
  - split; [done|]. done.
  - assert (q0 <> 2 ^ (- e0)) by (intros E; apply Hne, Hexact, E).
    destruct (2 * r0 ?= Zpos c); split; simpl; try lia; done.
Qed.

Lemma fdiv_hundred_at_most_one m e :
  bounded prec emax m e = true ->
  fle (S754_finite false m e) hundred = true ->
  at_most_one (fdiv (S754_finite false m e) hundred).
Proof.
  intros Hb Hle. apply bounded_mantissa in Hb.
  rewrite hundred_eq in *. apply fle_finite in Hle.
  unfold fdiv, SFdiv.
  destruct (SFdiv_core_binary _ _ _ _ _ _) as [[q e'] l] eqn:Hcore.
  assert (2 ^ 52 <= 7036874417766400) as Hc by (by vm_compute).
  assert (e <= -46) as He by lia.
  destruct (div_core_below m e _ _ Hb Hc eq_refl Hle _ _ _ Hcore)
    as [He' Hbelow].
  by apply binary_round_aux_at_most_one.
Qed.

Lemma iter_xO_value mx d : Zpos (Pos.iter xO mx d) = Zpos mx * 2 ^ Zpos d.
Proof.
  induction d as [|d IH] using Pos.peano_ind.
  - simpl. lia.
  - rewrite Pos.iter_succ, Pos2Z.inj_succ, Z.pow_succ_r by lia.
    change (Zpos (Pos.iter xO mx d)~0) with (2 * Zpos (Pos.iter xO mx d)).
    rewrite IH. lia.
Qed.

Lemma shl_align_value mx ex ex' :
  ex' <= ex ->
  Zpos (fst (shl_align mx ex ex')) = Zpos mx * 2 ^ (ex - ex').
Proof.
  intros H. unfold shl_align.
  destruct (ex' - ex) as [|d|d] eqn:E; [|lia|].
  - replace (ex - ex') with 0 by lia. simpl. lia.
  - replace (ex - ex') with (Zpos d) by lia. apply iter_xO_value.
Qed.

(** [a - x] is not below zero when [a] is a power of two, at least 1,
    and [x] is at most 1. *)
Lemma fsub_pow2_not_negative p1 e1 x :
  e1 <= 0 -> Zpos p1 = 2 ^ (- e1) -> at_most_one x ->
  not_negative (fsub (S754_finite false p1 e1) x) = true.
Proof.
  intros He1 Hp1 Hx. destruct x as [s|s| |[] m e]; try done.
  destruct Hx as [He Hm]. unfold fsub, SFsub, cond_Zopp.
  set (ez := Z.min e1 e).
  rewrite !shl_align_value by (unfold ez; lia).
  assert (Zpos m * 2 ^ (e - ez) <= Zpos p1 * 2 ^ (e1 - ez)) as Hle.
  { rewrite Hp1, <- Z.pow_add_r by (unfold ez; lia).
    replace (- e1 + (e1 - ez)) with (- e + (e - ez)) by lia.
    rewrite Z.pow_add_r by (unfold ez; lia).
    apply Z.mul_le_mono_nonneg_r; [|done].
    apply Z.pow_nonneg. lia. }
  destruct (Zpos p1 * 2 ^ (e1 - ez) - Zpos m * 2 ^ (e - ez))
    as [|d|d] eqn:Ed; simpl; [done| |lia].
  apply not_negative_round.
Qed.

Lemma fsub_one_not_negative x :
  at_most_one x -> not_negative (fsub one x) = true.
Proof.
  rewrite one_eq. apply fsub_pow2_not_negative; [done|reflexivity].
Qed.

Lemma not_negative_of_fle x : fle zero x = true -> not_negative x = true.
Proof. destruct x as [s|[]| |[] m e]; done. Qed.

(** X15. [get_discounted_price] on a product whose discount is set, whatever
    the price and the discount, does not raise: it returns
    [round(price * (1 - discount / 100), 2)] for a positive discount and
    the stored price otherwise.  And for a price of at least 0 and a
    discount between 0 and 100 the price it returns is never below
    zero. *)
Theorem discounted_price_is_never_negative p d :
  Product.discount_percentage p = Some d ->
  Product.get_discounted_price p
  = inl (if flt zero d
         then round2 (fmul (Product.price p) (fsub one (fdiv d hundred)))
         else Product.price p)
  /\ (well_formed d = true ->
      fle zero (Product.price p) = true ->
      fle zero d = true ->
      fle d hundred = true ->
      exists r,
        Product.get_discounted_price p = inl r /\ not_negative r = true).
Proof.
  intros Hd. unfold Product.get_discounted_price. rewrite Hd.
  split; [by destruct (flt zero d)|].
  intros Hwf Hprice Hd0 Hd100. apply not_negative_of_fle in Hprice.
  destruct (flt zero d) eqn:Hpos; eexists; (split; [reflexivity|]);
    [|done].
  apply not_negative_round2, not_negative_fmul; [done|].
  apply fsub_one_not_negative.
  destruct d as [s|[]| |[] m e]; try done.
  by apply fdiv_hundred_at_most_one.
Qed.

(** A discount of 10 % on a price of 100; and, outside the range of the
    second part, a discount of 150 % and one of -5 %: the method answers
    -50.0 and the price itself. *)
Lemma discounted_price_is_never_negative_witness :
  (Product.get_discounted_price
     (Sample.oil (float_of_Z 100) (Some (float_of_Z 10)) 50 true)
   = inl (float_of_Z 90)
   /\ exists r,
        Product.get_discounted_price
          (Sample.oil (float_of_Z 100) (Some (float_of_Z 10)) 50 true) = inl r
        /\ not_negative r = true)
  /\ Product.get_discounted_price
       (Sample.oil (float_of_Z 100) (Some (float_of_Z 150)) 50 true)
     = inl (float_of_Z (-50))
  /\ Product.get_discounted_price
       (Sample.oil (float_of_Z 100) (Some (float_of_Z (-5))) 50 true)
     = inl (float_of_Z 100).
Proof.
  split.
  - destruct (discounted_price_is_never_negative
                (Sample.oil (float_of_Z 100) (Some (float_of_Z 10)) 50 true)
                (float_of_Z 10) eq_refl) as [Hvalue Hsign].
    split; [exact Hvalue|]. apply Hsign; reflexivity.
  - split.
    + exact (proj1 (discounted_price_is_never_negative
                      (Sample.oil (float_of_Z 100) (Some (float_of_Z 150))
                         50 true)
                      (float_of_Z 150) eq_refl)).
    + exact (proj1 (discounted_price_is_never_negative
                      (Sample.oil (float_of_Z 100) (Some (float_of_Z (-5)))
                         50 true)
                      (float_of_Z (-5)) eq_refl)).
Defined.

(** ** Order statuses *)

Lemma valid_status_In s :
  existsb (String.eqb s) valid_statuses = true -> In s valid_statuses.
Proof.
  intros H. apply List.existsb_exists in H as (x & Hin & Heq).
  apply String.eqb_eq in Heq. by subst.
Qed.

(** X16. Every stored order always carries one of the six statuses: checkout
    and the status update of the admin keep it so. *)
Theorem order_status_stays_valid current_user admin order_id form_status
    req env db :
  statuses_valid db ->
  statuses_valid (snd (checkout current_user req env db))
  /\ statuses_valid
       (snd (update_order_status admin order_id form_status env db)).
Proof.
  intros Hv. split.
  - destruct (succeeded (fst (checkout current_user req env db))) eqn:Hs.
    + destruct (checkout_succeeded_order _ _ _ _ Hs)
        as (t & _ & _ & _ & Ho & _).
      unfold statuses_valid. rewrite Ho. apply Forall_app. split; [done|].
      constructor; [|done]. exists "confirmed". split; [done|].
      simpl. tauto.
    + by rewrite (checkout_failed_unchanged _ _ _ _ Hs).
  - unfold update_order_status, login_required, admin_required.
    destruct (is_authenticated admin); [|done].
    destruct admin as [u|]; [|done]. destruct (_ || _); [done|].
    destruct (List.find _ _); [|done].
    destruct form_status as [s|]; [|done].
    destruct (existsb _ _) eqn:Hin; [|done].
    destruct (fails_at _ _); [done|]. apply valid_status_In in Hin.
    unfold statuses_valid in *. simpl.
    induction Hv as [|o l Ho _ IH]; simpl; constructor; [|done].
    destruct (has_id order_id o); [|done]. by exists s.
Qed.

Lemma order_status_stays_valid_witness :
  statuses_valid (snd (checkout 8 Sample.submit Sample.env_b Sample.taken))
  /\ statuses_valid
       (snd (update_order_status (Some (User.mk 1 "root" "admin" true)) 1
               (Some "shipped") Sample.env_a Sample.taken)).
Proof.
  apply (order_status_stays_valid 8 (Some (User.mk 1 "root" "admin" true)) 1
           (Some "shipped") Sample.submit Sample.env_b Sample.taken).
  unfold statuses_valid. vm_compute. repeat constructor.
  exists "confirmed". split; [reflexivity|]. simpl. tauto.
Defined.

(** X17. The status update writes nothing but the status of orders: products,
    cart lines and order items are as before, every order keeps all its
    other columns, among them the amounts and the order number; and
    unless the user is an admin whose account is active the database is
    not touched at all. *)
Theorem status_update_changes_only_the_status current_user order_id
    form_status env db :
  products (snd (update_order_status current_user order_id form_status
                   env db)) = products db
  /\ cart_items (snd (update_order_status current_user order_id form_status
                        env db)) = cart_items db
  /\ order_items (snd (update_order_status current_user order_id form_status
                         env db)) = order_items db
  /\ Forall2 same_but_status (orders db)
       (orders (snd (update_order_status current_user order_id form_status
                       env db)))
  /\ (match current_user with
      | Some u => User.user_type u <> "admin" \/ User.is_active u = false
      | None => True
      end ->
      snd (update_order_status current_user order_id form_status env db)
      = db).
Proof.
  assert (Forall2 same_but_status (orders db) (orders db)) as Hrefl.
  { induction (orders db); by constructor. }
  unfold update_order_status, login_required, admin_required,
    is_authenticated, User.is_authenticated.
  destruct current_user as [u|]; [|done].
  destruct (User.is_active u) eqn:Hactive; [|done]. unfold User.is_admin.
  destruct (String.eqb_spec (User.user_type u) "admin") as [Hadmin|Hno];
    [|done].
  cbn [negb orb].
  assert (forall P : Prop,
            User.user_type u <> "admin" \/ true = false -> P) as Hex.
  { intros P [?|?]; done. }
  destruct (List.find _ _);
    [|repeat split; try done; intros H; apply (Hex _ H)].
  destruct form_status as [s|];
    [|repeat split; try done; intros H; apply (Hex _ H)].
  destruct (existsb _ _);
    [|repeat split; try done; intros H; apply (Hex _ H)].
  destruct (fails_at _ _);
    [repeat split; try done; intros H; apply (Hex _ H)|].
  cbn [snd products cart_items order_items orders set_orders].
  repeat split; [|intros H; apply (Hex _ H)].
  clear. induction (orders db) as [|o l IH]; simpl; constructor; [|done].
  destruct (has_id order_id o); [|done]. by destruct o.
Qed.

(** X18. When the status update changes the database, the user is an admin
    whose account is active, the requested status is one of the six, the
    order exists, and the order found under that id afterwards is the
    same order with the requested status. *)
Theorem status_update_stores_the_requested_status current_user order_id
    form_status env db :
  snd (update_order_status current_user order_id form_status env db) <> db ->
  exists u s o,
    current_user = Some u
    /\ User.is_admin u = true
    /\ User.is_active u = true
    /\ form_status = Some s
    /\ In s valid_statuses
    /\ List.find (has_id order_id) (orders db) = Some o
    /\ List.find (has_id order_id)
         (orders (snd (update_order_status current_user order_id
                         form_status env db)))
       = Some (set_order_status s o).
Proof.
  unfold update_order_status, login_required, admin_required,
    is_authenticated, User.is_authenticated.
  destruct current_user as [u|]; [|done].
  destruct (User.is_active u) eqn:Hactive; [|done].
  destruct (User.is_admin u) eqn:Hadmin; [|done]. cbn [negb orb].
  destruct (List.find _ _) as [o|] eqn:Hfind; [|done].
  destruct form_status as [s|]; [|done].
  destruct (existsb _ _) eqn:Hin; [|done].
  destruct (fails_at _ _); [done|]. intros _.
  exists u, s, o. repeat split; try done; [by apply valid_status_In|].
  simpl. erewrite find_map_kept; [| |exact Hfind].
  - apply List.find_some in Hfind as [_ ->]. done.
  - intros x. destruct (has_id order_id x) eqn:E; [|done].
    unfold has_id in *. simpl. exact E.
Qed.

Lemma status_update_stores_the_requested_status_witness :
  exists u s o,
    Some (User.mk 1 "root" "admin" true) = Some u
    /\ User.is_admin u = true
    /\ User.is_active u = true
    /\ Some "shipped" = Some s
    /\ In s valid_statuses
    /\ List.find (has_id 1) (orders Sample.taken) = Some o
    /\ List.find (has_id 1)
         (orders (snd (update_order_status (Some (User.mk 1 "root" "admin" true))
                         1 (Some "shipped") Sample.env_a Sample.taken)))
       = Some (set_order_status s o).
Proof.
  apply (status_update_stores_the_requested_status
           (Some (User.mk 1 "root" "admin" true)) 1 (Some "shipped")
           Sample.env_a Sample.taken).
  intros H. apply (f_equal orders) in H. vm_compute in H. discriminate.
Defined.

(** ** Months of the dashboard, upload names, rating counts *)

(** X19. [_shift_month] moves the month count [12 * year + month] by exactly
    [offset], whatever its sign, and answers with the first day of a
    month between 1 and 12 of a year between 1 and 9999. *)
Theorem shift_month_counts_months reference offset shifted :
  _shift_month reference offset = Some shifted ->
  day shifted = 1
  /\ 1 <= month shifted <= 12
  /\ 1 <= year shifted <= 9999
  /\ 12 * year shifted + month shifted
     = 12 * year reference + month reference + offset.
Proof.
  unfold _shift_month.
  destruct (_ && _) eqn:Hy; [|done]. intros [= <-]. simpl.
  apply andb_true_iff in Hy as [Hy1 Hy2].
  pose proof (Z.mod_pos_bound (month reference - 1 + offset) 12 ltac:(lia)).
  pose proof (Z.div_mod (month reference - 1 + offset) 12 ltac:(lia)).
  lia.
Qed.

Lemma shift_month_counts_months_witness :
  day (mkDate 2023 11 1) = 1
  /\ 1 <= month (mkDate 2023 11 1) <= 12
  /\ 1 <= year (mkDate 2023 11 1) <= 9999
  /\ 12 * year (mkDate 2023 11 1) + month (mkDate 2023 11 1)
     = 12 * year (mkDate 2024 3 9) + month (mkDate 2024 3 9) + -4.
Proof.
  apply (shift_month_counts_months (mkDate 2024 3 9) (-4) (mkDate 2023 11 1)).
  reflexivity.
Defined.

(** X20. Shifting twice is shifting once by the sum of the offsets. *)
Theorem shift_month_composes reference a b shifted :
  _shift_month reference a = Some shifted ->
  _shift_month shifted b = _shift_month reference (a + b).
Proof.
  unfold _shift_month.
  destruct (_ && _); [|done]. intros [= <-]. simpl.
  pose proof (Z.mod_pos_bound (month reference - 1 + a) 12 ltac:(lia)).
  pose proof (Z.div_mod (month reference - 1 + a) 12 ltac:(lia)) as Ha.
  set (q := (month reference - 1 + a) / 12) in *.
  set (r := (month reference - 1 + a) mod 12) in *.
  replace (r + 1 - 1 + b) with (r + b) by lia.
  replace (month reference - 1 + (a + b)) with ((r + b) + q * 12) by lia.
  rewrite Z.div_add, Z.mod_add by lia.
  by replace (year reference + q + (r + b) / 12)
    with (year reference + ((r + b) / 12 + q)) by lia.
Qed.

Lemma shift_month_composes_witness :
  _shift_month (mkDate 2023 11 1) 7 = _shift_month (mkDate 2024 3 9) (-4 + 7).
Proof.
  apply (shift_month_composes (mkDate 2024 3 9) (-4) 7 (mkDate 2023 11 1)).
  reflexivity.
Defined.

Lemma after_last_dot_none s :
  string_forall (fun c => negb (is_dot c)) s = true ->
  after_last_dot s = None.
Proof.
  induction s as [|c s IH]; [done|]. simpl.
  intros [Hc Hs]%andb_true_iff. rewrite (IH Hs).
  by destruct (is_dot c).
Qed.

Lemma after_last_dot_app name ext :
  string_forall (fun c => negb (is_dot c)) ext = true ->
  after_last_dot (name ++ "." ++ ext) = Some ext.
Proof.
  intros Hext. induction name as [|c name IH].
  - change (after_last_dot ("" ++ "." ++ ext))
      with (match after_last_dot ext with
            | Some e => Some e
            | None => Some ext
            end).
    by rewrite (after_last_dot_none _ Hext).
  - change (after_last_dot (String c name ++ "." ++ ext))
      with (match after_last_dot (name ++ "." ++ ext) with
            | Some e => Some e
            | None => if is_dot c then Some (name ++ "." ++ ext) else None
            end).
    by rewrite IH.
Qed.

(** X21. [allowed_file] looks at what follows the last dot only, and without
    regard to case: for an extension that has no dot, the name
    [name.extension] is accepted exactly when the extension in lower case
    is one of png, jpg, jpeg, gif and webp, and the extension alone, a
    name without dot, is refused. *)
Theorem allowed_file_reads_the_last_extension name extension :
  string_forall (fun c => negb (is_dot c)) extension = true ->
  allowed_file extension = false
  /\ (allowed_file (name ++ "." ++ extension) = true
      <-> In (lower extension) ALLOWED_EXTENSIONS).
Proof.
  intros Hext. unfold allowed_file.
  rewrite (after_last_dot_none _ Hext), (after_last_dot_app _ _ Hext).
  split; [done|]. rewrite List.existsb_exists. split.
  - intros (x & Hin & ->%String.eqb_eq). done.
  - intros Hin. exists (lower extension). split; [done|].
    apply String.eqb_refl.
Qed.

Lemma allowed_file_reads_the_last_extension_witness :
  allowed_file "JPG" = false
  /\ (allowed_file ("shell.php" ++ "." ++ "JPG") = true
      <-> In (lower "JPG") ALLOWED_EXTENSIONS).
Proof.
  apply (allowed_file_reads_the_last_extension "shell.php" "JPG").
  reflexivity.
Defined.

Lemma rating_fold_none (ratings : list Z) :
  List.fold_left
    (fun acc rating =>
       match acc with
       | Some distribution =>
           match distribution !! rating with
           | Some n => Some (<[rating := n + 1]> distribution)
           | None => None
           end
       | None => None
       end) ratings (@None (gmap Z Z)) = None.
Proof. induction ratings as [|r l IH]; [done|]. exact IH. Qed.

Lemma rating_fold_counts (ratings : list Z) : forall d : gmap Z Z,
  (forall k, 1 <= k <= 5 <-> is_Some (d !! k)) ->
  (Forall (fun r => 1 <= r <= 5) ratings ->
   exists d',
     List.fold_left
       (fun acc rating =>
          match acc with
          | Some distribution =>
              match distribution !! rating with
              | Some n => Some (<[rating := n + 1]> distribution)
              | None => None
              end
          | None => None
          end) ratings (Some d) = Some d'
     /\ forall k,
          d' !! k = (fun n => n + count_rating k ratings) <$> d !! k)
  /\ (~ Forall (fun r => 1 <= r <= 5) ratings ->
      List.fold_left
        (fun acc rating =>
           match acc with
           | Some distribution =>
               match distribution !! rating with
               | Some n => Some (<[rating := n + 1]> distribution)
               | None => None
               end
           | None => None
           end) ratings (Some d) = None).
Proof.
  induction ratings as [|r l IH]; intros d Hdom.
  - split; [|by intros []]. intros _. exists d. split; [done|].
    intros k. unfold count_rating. simpl.
    destruct (d !! k); simpl; [f_equal; lia|done].
  - simpl. destruct (d !! r) as [n|] eqn:Hr.
    + assert (1 <= r <= 5) as Hrange by (apply Hdom; by rewrite Hr).
      destruct (IH (<[r := n + 1]> d)) as [IHok IHbad].
      { intros k. destruct (decide (r = k)) as [<-|Hne].
        - rewrite lookup_insert_eq. split; [by eexists|done].
        - by rewrite lookup_insert_ne. }
      split.
      * intros [_ Hl]%Forall_cons. destruct (IHok Hl) as (d' & -> & Hd').
        exists d'. split; [done|]. intros k. rewrite Hd'.
        unfold count_rating. simpl.
        destruct (decide (r = k)) as [<-|Hne].
        -- rewrite lookup_insert_eq, Hr, Z.eqb_refl. simpl. f_equal. lia.
        -- rewrite lookup_insert_ne by done.
           assert ((k =? r) = false) as -> by lia. done.
      * intros Hbad. apply IHbad. intros Hl. apply Hbad. by constructor.
    + split.
      * intros [Hrange _]%Forall_cons. apply Hdom in Hrange.
        rewrite Hr in Hrange. by destruct Hrange.
      * intros _. apply rating_fold_none.
Qed.

(** X22. [get_rating_distribution] counts, for each of the ratings 1 to 5, the
    reviews with that rating, and has no other key, when every rating is
    between 1 and 5; a rating outside makes it raise. *)
Theorem rating_distribution_counts ratings :
  (Forall (fun r => 1 <= r <= 5) ratings ->
   exists distribution,
     get_rating_distribution ratings = Some distribution
     /\ forall k,
          distribution !! k
          = if (1 <=? k) && (k <=? 5)
            then Some (count_rating k ratings) else None)
  /\ (~ Forall (fun r => 1 <= r <= 5) ratings ->
      get_rating_distribution ratings = None).
Proof.
  unfold get_rating_distribution.
  set (d0 := <[5:=0]> (<[4:=0]> (<[3:=0]> (<[2:=0]> (<[1:=0]> ∅))))).
  assert (forall k, d0 !! k = if (1 <=? k) && (k <=? 5) then Some 0 else None)
    as Hd0.
  { intros k. unfold d0.
    destruct (decide (k = 5)) as [->|?]; [done|].
    destruct (decide (k = 4)) as [->|?]; [done|].
    destruct (decide (k = 3)) as [->|?]; [done|].
    destruct (decide (k = 2)) as [->|?]; [done|].
    destruct (decide (k = 1)) as [->|?]; [done|].
    rewrite !lookup_insert_ne, lookup_empty by done.
    destruct (Z.leb_spec 1 k), (Z.leb_spec k 5); simpl; try done. lia. }
  destruct (rating_fold_counts ratings d0) as [Hok Hbad].
  { intros k. rewrite Hd0.
    destruct (Z.leb_spec 1 k), (Z.leb_spec k 5); simpl;
      split; try lia; try (by eexists); by intros []. }
  split; [|done]. intros Hall. destruct (Hok Hall) as (d' & -> & Hd').
  exists d'. split; [done|]. intros k. rewrite Hd', Hd0.
  by destruct ((1 <=? k) && (k <=? 5)).
Qed.

Lemma rating_distribution_counts_witness :
  exists distribution,
    get_rating_distribution [5; 4; 5; 1] = Some distribution
    /\ forall k,
         distribution !! k
         = if (1 <=? k) && (k <=? 5)
           then Some (count_rating k [5; 4; 5; 1]) else None.
Proof.
  apply (proj1 (rating_distribution_counts [5; 4; 5; 1])).
  repeat constructor; lia.
Defined.

(** ** The shipping address of a placed order *)

Lemma required_length_inv min max data :
  required_length min max data = true ->
  exists d, data = Some d /\ blank d = false /\ min <= len d <= max.
Proof.
  unfold required_length. destruct data as [d|]; [|done]. intros H.
  apply andb_true_iff in H as [H Hmax].
  apply andb_true_iff in H as [Hblank Hmin].
  apply negb_true_iff in Hblank. exists d. split; [done|]. split; [done|].
  lia.
Qed.

(** X23. An order is only placed from a POST request with a valid CSRF token
    and a form that passed validation: the stored recipient name, phone,
    first address line, city, state and PIN code are there, hold more
    than whitespace and fit their columns (120, 10 to 20, 200, 100, 100
    and 6 to 10 characters), and the second address line is missing,
    whitespace or at most 200 characters.  Characters are code points and
    whitespace is what [str.strip()] removes. *)
Theorem placed_order_has_a_validated_address current_user req env db :
  succeeded (fst (checkout current_user req env db)) = true ->
  exists o name phone line1 city state pincode,
    orders (snd (checkout current_user req env db)) = (orders db ++ [o])%list
    /\ Order.user_id o = current_user
    /\ method req = POST
    /\ csrf_ok req = true
    /\ (Order.shipping_full_name o = Some name
        /\ blank name = false /\ len name <= 120)
    /\ (Order.shipping_phone o = Some phone
        /\ blank phone = false /\ 10 <= len phone <= 20)
    /\ (Order.shipping_address_line1 o = Some line1
        /\ blank line1 = false /\ len line1 <= 200)
    /\ match Order.shipping_address_line2 o with
       | Some line2 => blank line2 = true \/ len line2 <= 200
       | None => True
       end
    /\ (Order.shipping_city o = Some city
        /\ blank city = false /\ len city <= 100)
    /\ (Order.shipping_state o = Some state
        /\ blank state = false /\ len state <= 100)
    /\ (Order.shipping_pincode o = Some pincode
        /\ blank pincode = false /\ 6 <= len pincode <= 10).
Proof.
  intros Hs.
  destruct (checkout_succeeded_inv _ _ _ _ Hs)
    as (t0 & s1 & _ & Ht0 & Hvalid & _).
  destruct (checkout_succeeded_order _ _ _ _ Hs)
    as (t & _ & _ & _ & Ho & _).
  unfold validate_on_submit in Hvalid.
  destruct (method req) eqn:Hmethod; [done|].
  apply andb_true_iff in Hvalid as [Hcsrf Hvalid]. unfold validate in Hvalid.
  apply andb_true_iff in Hvalid as [Hvalid Hpincode].
  apply andb_true_iff in Hvalid as [Hvalid Hstate].
  apply andb_true_iff in Hvalid as [Hvalid Hcity].
  apply andb_true_iff in Hvalid as [Hvalid Hline2].
  apply andb_true_iff in Hvalid as [Hvalid Hline1].
  apply andb_true_iff in Hvalid as [Hname Hphone].
  apply required_length_inv in Hname as (name & Hname & ? & ?).
  apply required_length_inv in Hphone as (phone & Hphone & ? & ?).
  apply required_length_inv in Hline1 as (line1 & Hline1 & ? & ?).
  apply required_length_inv in Hcity as (city & Hcity & ? & ?).
  apply required_length_inv in Hstate as (state & Hstate & ? & ?).
  apply required_length_inv in Hpincode as (pincode & Hpincode & ? & ?).
  eexists _, name, phone, line1, city, state, pincode.
  split; [exact Ho|].
  cbn [Order.inserted new_order Order.user_id Order.shipping_full_name
       Order.shipping_phone Order.shipping_address_line1
       Order.shipping_address_line2 Order.shipping_city
       Order.shipping_state Order.shipping_pincode].
  repeat split; try done; try lia.
  unfold optional_length in Hline2.
  destruct (address_line2 (form req)) as [line2|]; [|done].
  apply orb_true_iff in Hline2 as [?|?]; [by left|right; lia].
Qed.

(** A form filled in Devanagari, the second address line left out: the
    phone number has ten characters (thirty bytes in UTF-8), the name
    holds a no-break space. *)
Lemma placed_order_has_a_validated_address_witness :
  exists o name phone line1 city state pincode,
    orders (snd (checkout 7 Sample.hindi_submit Sample.env_a
                   Sample.discounted_cart))
    = (orders Sample.discounted_cart ++ [o])%list
    /\ Order.user_id o = 7
    /\ method Sample.hindi_submit = POST
    /\ csrf_ok Sample.hindi_submit = true
    /\ (Order.shipping_full_name o = Some name
        /\ blank name = false /\ len name <= 120)
    /\ (Order.shipping_phone o = Some phone
        /\ blank phone = false /\ 10 <= len phone <= 20)
    /\ (Order.shipping_address_line1 o = Some line1
        /\ blank line1 = false /\ len line1 <= 200)
    /\ match Order.shipping_address_line2 o with
       | Some line2 => blank line2 = true \/ len line2 <= 200
       | None => True
       end
    /\ (Order.shipping_city o = Some city
        /\ blank city = false /\ len city <= 100)
    /\ (Order.shipping_state o = Some state
        /\ blank state = false /\ len state <= 100)
    /\ (Order.shipping_pincode o = Some pincode
        /\ blank pincode = false /\ 6 <= len pincode <= 10).
Proof.
  apply (placed_order_has_a_validated_address 7 Sample.hindi_submit
           Sample.env_a Sample.discounted_cart).
  vm_compute; reflexivity.
Defined.

(** ** The wishlist: move_to_cart *)

(** X24. When [move_to_cart] changes anything, the wishlist item was one of
    the requesting user, its product is on sale and in stock, the item is
    gone from the wishlist, and the cart line of the user for the product
    holds a quantity between one and the stock: a line that was at or
    above the stock is brought down to it.  Products and orders are not
    touched. *)
Theorem move_to_cart_stays_within_stock current_user item_id wants_json
    referrer env s :
  cart_constraints (store_db s) ->
  snd (move_to_cart current_user item_id wants_json referrer env s) <> s ->
  exists w p c,
    List.find (fun w => (WishlistItem.id w =? item_id)
                        && (WishlistItem.user_id w =? current_user))
              (wishlist_items s) = Some w
    /\ products (store_db s) !! WishlistItem.product_id w = Some p
    /\ Product.is_active p = true
    /\ List.find (fun w => (WishlistItem.id w =? item_id)
                           && (WishlistItem.user_id w =? current_user))
         (wishlist_items
            (snd (move_to_cart current_user item_id wants_json referrer
                    env s))) = None
    /\ List.find (fun c => (CartItem.user_id c =? current_user)
                           && (CartItem.product_id c
                               =? WishlistItem.product_id w))
         (cart_items
            (store_db
               (snd (move_to_cart current_user item_id wants_json referrer
                       env s)))) = Some c
    /\ 1 <= CartItem.quantity c <= Product.stock_quantity p
    /\ products
         (store_db (snd (move_to_cart current_user item_id wants_json
                           referrer env s))) = products (store_db s)
    /\ orders
         (store_db (snd (move_to_cart current_user item_id wants_json
                           referrer env s))) = orders (store_db s).
Proof.
  intros (_ & _ & Hq). unfold move_to_cart.
  destruct (List.find _ (wishlist_items s)) as [w|] eqn:Hw; [|done].
  destruct (products (store_db s) !! WishlistItem.product_id w)
    as [p|] eqn:Hp; [|done].
  destruct (Product.is_active p) eqn:Hact; [|done]. simpl.
  unfold Product.is_in_stock.
  destruct (Z.ltb_spec 0 (Product.stock_quantity p)) as [Hstock|];
    [|done]. simpl.
  destruct (_ || _); [done|]. intros _. cbn [snd].
  exists w, p.
  assert (WishlistItem.id w = item_id) as Hwid.
  { apply List.find_some in Hw as [_ Hb]. lia. }
  assert (List.find (fun w0 => (WishlistItem.id w0 =? item_id)
                               && (WishlistItem.user_id w0 =? current_user))
            (List.filter (fun w0 =>
               negb (WishlistItem.id w0 =? WishlistItem.id w))
               (wishlist_items s)) = None) as Hgone.
  { destruct (List.find _ (List.filter _ _)) as [x|] eqn:Hx; [|done].
    apply List.find_some in Hx as [[_ Hne]%List.filter_In Hb]. lia. }
  destruct (List.find _ (cart_items (store_db s))) as [c0|] eqn:Hfind.
  - exists (CartItem.set_quantity
              (Z.min (CartItem.quantity c0 + 1) (Product.stock_quantity p))
              c0).
    repeat split; try done; simpl.
    + erewrite find_map_kept; [| |exact Hfind].
      * by rewrite Z.eqb_refl.
      * intros c. by destruct (CartItem.id c =? CartItem.id c0).
    + apply List.find_some in Hfind as [Hin _].
      rewrite List.Forall_forall in Hq. specialize (Hq _ Hin). lia.
    + lia.
  - eexists. repeat split; try done; simpl.
    + rewrite (find_after_none _ _ _ Hfind). simpl. by rewrite !Z.eqb_refl.
    + simpl. lia.
    + simpl. lia.
Qed.

Lemma move_to_cart_stays_within_stock_witness :
  exists w p c,
    List.find (fun w => (WishlistItem.id w =? 5)
                        && (WishlistItem.user_id w =? 7))
              [WishlistItem.mk 5 7 1] = Some w
    /\ products (snd Sample.outsold_3) !! WishlistItem.product_id w = Some p
    /\ Product.is_active p = true
    /\ List.find (fun w => (WishlistItem.id w =? 5)
                           && (WishlistItem.user_id w =? 7))
         (wishlist_items
            (snd (move_to_cart 7 5 false None Sample.env_a
                    (mkStore (snd Sample.outsold_3)
                       [WishlistItem.mk 5 7 1])))) = None
    /\ List.find (fun c => (CartItem.user_id c =? 7)
                           && (CartItem.product_id c
                               =? WishlistItem.product_id w))
         (cart_items
            (store_db
               (snd (move_to_cart 7 5 false None Sample.env_a
                       (mkStore (snd Sample.outsold_3)
                          [WishlistItem.mk 5 7 1]))))) = Some c
    /\ 1 <= CartItem.quantity c <= Product.stock_quantity p
    /\ products
         (store_db (snd (move_to_cart 7 5 false None Sample.env_a
                           (mkStore (snd Sample.outsold_3)
                              [WishlistItem.mk 5 7 1]))))
       = products (snd Sample.outsold_3)
    /\ orders
         (store_db (snd (move_to_cart 7 5 false None Sample.env_a
                           (mkStore (snd Sample.outsold_3)
                              [WishlistItem.mk 5 7 1]))))
       = orders (snd Sample.outsold_3).
Proof.
  apply (move_to_cart_stays_within_stock 7 5 false None Sample.env_a
           (mkStore (snd Sample.outsold_3) [WishlistItem.mk 5 7 1])).
  - unfold cart_constraints.
    repeat split; apply (bool_decide_unpack _); vm_compute; exact I.
  - intros H. apply (f_equal wishlist_items) in H. vm_compute in H.
    discriminate.
Defined.

(** X25. [move_to_cart] keeps the constraints of the cart table. *)
Theorem move_to_cart_keeps_constraints current_user item_id wants_json
    referrer env s :
  cart_constraints (store_db s) ->
  cart_constraints
    (store_db
       (snd (move_to_cart current_user item_id wants_json referrer env s))).
Proof.
  intros (Hid & Hpair & Hq). unfold move_to_cart.
  destruct (List.find _ (wishlist_items s)) as [w|]; [|done].
  destruct (products (store_db s) !! _) as [p|]; [|done].
  destruct (Product.is_active p); [|done]. simpl.
  unfold Product.is_in_stock.
  destruct (Z.ltb_spec 0 (Product.stock_quantity p)) as [Hstock|];
    [|done]. simpl.
  destruct (_ || _); [done|]. cbn [snd store_db].
  destruct (List.find _ (cart_items (store_db s))) as [c0|] eqn:Hfind;
    unfold cart_constraints; simpl.
  - destruct (map_set_quantity_keys
                (fun c => CartItem.id c =? CartItem.id c0)
                (Z.min (CartItem.quantity c0 + 1) (Product.stock_quantity p))
                (cart_items (store_db s))) as [-> ->].
    split; [done|]. split; [done|].
    apply Forall_map_set_quantity; [|done].
    apply List.find_some in Hfind as [Hin _].
    rewrite List.Forall_forall in Hq. specialize (Hq _ Hin). lia.
  - rewrite !List.map_app. simpl. split; [|split].
    + apply NoDup_app. split; [done|]. split; [|apply NoDup_singleton].
      intros x Hx ->%list_elem_of_singleton. revert Hx.
      rewrite list_elem_of_In. apply next_id_fresh.
    + apply NoDup_app. split; [done|]. split; [|apply NoDup_singleton].
      intros x Hx ->%list_elem_of_singleton. revert Hx.
      rewrite list_elem_of_In. by apply find_none_pair.
    + apply Forall_app. split; [done|]. by constructor.
Qed.

Lemma move_to_cart_keeps_constraints_witness :
  cart_constraints
    (store_db
       (snd (move_to_cart 7 5 false None Sample.env_a
               (mkStore (snd Sample.outsold_3) [WishlistItem.mk 5 7 1])))).
Proof.
  apply (move_to_cart_keeps_constraints 7 5 false None Sample.env_a
           (mkStore (snd Sample.outsold_3) [WishlistItem.mk 5 7 1])).
  unfold cart_constraints.
  repeat split; apply (bool_decide_unpack _); vm_compute; exact I.
Defined.

(** ** Constraints of the order table *)

Lemma fresh_order_number n (l : list Order.t) :
  existsb (String.eqb n) (List.map Order.order_number l) = false ->
  ~ In n (List.map Order.order_number l).
Proof.
  intros Hfree Hin.
  assert (existsb (String.eqb n) (List.map Order.order_number l) = true)
    as Hex.
  { apply List.existsb_exists. exists n. split; [done|].
    apply String.eqb_refl. }
  by rewrite Hfree in Hex.
Qed.

Lemma omap_map_same {A B} (g : A -> option B) (f : A -> A) (l : list A) :
  (forall x, g (f x) = g x) -> omap g (List.map f l) = omap g l.
Proof.
  intros Hg. induction l as [|a l IH]; [done|].
  change (omap g (List.map f (a :: l)))
    with (match g (f a) with
          | Some y => y :: omap g (List.map f l)
          | None => omap g (List.map f l)
          end).
  rewrite Hg, IH. done.
Qed.

Lemma map_map_same {A B} (g : A -> B) (f : A -> A) (l : list A) :
  (forall x, g (f x) = g x) -> List.map g (List.map f l) = List.map g l.
Proof.
  intros Hg. induction l as [|a l IH]; [done|]. simpl. by rewrite Hg, IH.
Qed.

(** X26. Order ids and order numbers stay unique: a checkout stores its order
    under a new id and under a number that no stored order carries, and
    the status update rewrites neither. *)
Theorem order_keys_stay_unique current_user admin order_id form_status req
    env db :
  orders_constraints db ->
  orders_constraints (snd (checkout current_user req env db))
  /\ orders_constraints
       (snd (update_order_status admin order_id form_status env db)).
Proof.
  intros [Hid Hnum]. split.
  - destruct (succeeded (fst (checkout current_user req env db))) eqn:Hs.
    + destruct (checkout_succeeded_order _ _ _ _ Hs)
        as (t & _ & _ & Hfree & Ho & _).
      unfold orders_constraints. rewrite Ho.
      rewrite omap_app, List.map_app. simpl. split.
      * apply NoDup_app. split; [done|]. split; [|apply NoDup_singleton].
        intros x Hx ->%list_elem_of_singleton. revert Hx.
        rewrite list_elem_of_In. apply next_id_fresh.
      * apply NoDup_app. split; [done|]. split; [|apply NoDup_singleton].
        intros x Hx ->%list_elem_of_singleton. revert Hx.
        rewrite list_elem_of_In. by apply fresh_order_number.
    + by rewrite (checkout_failed_unchanged _ _ _ _ Hs).
  - unfold update_order_status, login_required, admin_required.
    destruct (is_authenticated admin); [|done].
    destruct admin as [u|]; [|done]. destruct (_ || _); [done|].
    destruct (List.find _ _); [|done].
    destruct form_status as [s|]; [|done].
    destruct (existsb _ _); [|done]. destruct (fails_at _ _); [done|].
    unfold orders_constraints. simpl.
    rewrite omap_map_same, map_map_same; [done| |];
      intros o; by destruct (has_id order_id o).
Qed.

Lemma order_keys_stay_unique_witness :
  orders_constraints (snd (checkout 8 Sample.submit Sample.env_b Sample.taken))
  /\ orders_constraints
       (snd (update_order_status (Some (User.mk 1 "root" "admin" true)) 1
               (Some "shipped") Sample.env_a Sample.taken)).
Proof.
  apply (order_keys_stay_unique 8 (Some (User.mk 1 "root" "admin" true)) 1
           (Some "shipped") Sample.submit Sample.env_b Sample.taken).
  unfold orders_constraints.
  split; apply (bool_decide_unpack _); vm_compute; exact I.
Defined.
